(** * The tinc provider of virtual-kubelet: pod store, configuration
      loading and generation of the tinc configuration files.

    A shallow embedding of [providers/tinc]: the provider's pod map is a
    [gmap], the package-level variables are a record that is threaded
    through the calls, and the host (file system, docker client) is a
    record of outcomes together with a trace of what was written and run. *)

From Stdlib Require Import ZArith Ascii String List DecimalString.
From stdpp Require Import base option strings list gmap fin_maps.

Local Open Scope string_scope.
Local Open Scope list_scope.

(** ** Strings as Go has them *)

(** The line feed, written [\n] in the Go literals. *)
Definition nl : string := String (ascii_of_nat 10) EmptyString.

(** [fmt.Sprintf("%d", n)] for an [int32]. *)
Definition fmt_d (n : Z) : string := NilZero.string_of_int (Z.to_int n).

(** Go's [asciiSpace] table: tab, line feed, vertical tab, form feed,
    carriage return, space. *)
Definition isSpace (c : ascii) : bool :=
  let n := nat_of_ascii c in
  (Nat.leb 9 n && Nat.leb n 13) || Nat.eqb n 32.

(** The width in bytes of the white-space character that starts the
    string, 0 if none does.  Besides the six ASCII characters these are,
    in UTF-8, U+0085 and U+00A0 (C2 85, C2 A0), U+1680 (E1 9A 80),
    U+2000 to U+200A, U+2028, U+2029 and U+202F (E2 80 ..), U+205F
    (E2 81 9F) and U+3000 (E3 80 80): the characters of [unicode.IsSpace]. *)
Definition spaceWidth (s : string) : nat :=
  match s with
  | EmptyString => 0
  | String c1 r1 =>
      if isSpace c1 then 1
      else
        let b1 := nat_of_ascii c1 in
        match r1 with
        | String c2 r2 =>
            let b2 := nat_of_ascii c2 in
            if Nat.eqb b1 194 then
              (if Nat.eqb b2 133 || Nat.eqb b2 160 then 2 else 0)
            else
              match r2 with
              | String c3 _ =>
                  let b3 := nat_of_ascii c3 in
                  if (Nat.eqb b1 225 && Nat.eqb b2 154 && Nat.eqb b3 128)
                     || (Nat.eqb b1 226 && Nat.eqb b2 128
                         && ((Nat.leb 128 b3 && Nat.leb b3 138)
                             || Nat.eqb b3 168 || Nat.eqb b3 169 || Nat.eqb b3 175))
                     || (Nat.eqb b1 226 && Nat.eqb b2 129 && Nat.eqb b3 159)
                     || (Nat.eqb b1 227 && Nat.eqb b2 128 && Nat.eqb b3 128)
                  then 3 else 0
              | EmptyString => 0
              end
        | EmptyString => 0
        end
  end.

(** [strings.Fields]: the maximal runs of bytes between white-space
    characters, in order.  [cur] is the field being read, [skip] the
    number of bytes still to pass of the white-space character being
    read. *)
Fixpoint fieldsFrom (skip : nat) (cur : string) (s : string) : list string :=
  match s with
  | EmptyString => if String.eqb cur "" then [] else [cur]
  | String c rest =>
      match skip with
      | S k => fieldsFrom k cur rest
      | O =>
          match spaceWidth s with
          | O => fieldsFrom 0 (cur +:+ String c "") rest
          | S k =>
              if String.eqb cur "" then fieldsFrom k "" rest
              else cur :: fieldsFrom k "" rest
          end
      end
  end.

Definition Fields (s : string) : list string := fieldsFrom 0 "" s.

(** [filepath.Join]: the non-empty elements separated by a slash.  The
    provider only joins "/tmp", a node name and a file name, on which the
    final [Clean] of the Go function changes nothing. *)
Definition filepath_Join (elems : list string) : string :=
  String.concat "/" (filter (fun e => e ≠ "") elems).

(** ** Errors *)

Inductive error : Type :=
  | Errorf (msg : string)        (* fmt.Errorf *)
  | NotFound (cause : error)     (* strongerrors.NotFound *)
  | HostError (msg : string).    (* an error of the os, json or exec packages *)

Fixpoint Error (e : error) : string :=
  match e with
  | Errorf msg => msg
  | NotFound cause => Error cause
  | HostError msg => msg
  end.

(** ** Constants *)

Definition tincAutoConnect : string := "yes".
Definition tincModeRouter : string := "router".
Definition tincModeSwitch : string := "switch".
Definition tincDeviceTunTap : string := "/dev/net/tun".
Definition tincDeviceTypeDummy : string := "dummy".
Definition tincDeviceTypeTap : string := "tap".
Definition tincImageName : string := "quay.io/dongsupark/tinc".
Definition dockerClient : string := "/usr/bin/docker".

Definition defaultCPUCapacity : string := "20".
Definition defaultMemoryCapacity : string := "100Gi".
Definition defaultPodCapacity : string := "20".

Definition DefaultTincMainName : string := "nodemain".
Definition DefaultTincRemotePeers : string := "nodepeer".
Definition DefaultTincMainAddress : string := "172.17.0.2".
Definition DefaultTincPeerAddress : string := "172.17.0.3".
Definition DefaultTincMainPrivateAddress : string := "10.1.1.1".
Definition DefaultTincPeerPrivateAddress : string := "10.1.1.2".
Definition DefaultTincSubnet : string := "10.1.1.0/24".
Definition DefaultTincPort : Z := 655.

Definition tincStartupConfigContainer : string := "/environment/default.startup.conf".
Definition tincMainConfigContainer : string := "/service/tinc/data/tinc.conf".
Definition tincUpScriptContainer : string := "/service/tinc/data/tinc-up".

(** ** Configuration *)

(** [TincConfig].  [ExperimentalProtocol] is read by [createStartupConfig]
    although the struct declaration at hand does not list it; it is kept
    as one more string field, which [loadConfig] never defaults. *)
Record TincConfig : Type := mkTincConfig {
  AutoConnect : string;
  ConnectTo : string;
  Device : string;
  DeviceType : string;
  Mode : string;
  Name : string;
  ExperimentalProtocol : string;
  CPU : string;
  Memory : string;
  Pods : string;
}.

(** The zero value of the struct. *)
Definition zeroConfig : TincConfig :=
  mkTincConfig "" "" "" "" "" "" "" "" "" "".

(** [if f == "" { f = d }] *)
Definition orDefault (f d : string) : string :=
  if String.eqb f "" then d else f.

(** The package-level variables. *)
Record Vars : Type := mkVars {
  myAddress : string;
  peerAddress : string;
  privateAddress : string;
  tincMainName : string;
  tincPeerName : string;
  tincStartupConfigHost : string;
  tincMainConfigHost : string;
  tincUpScriptHost : string;
}.

(** Their initial values. *)
Definition initVars : Vars :=
  mkVars DefaultTincMainAddress DefaultTincPeerAddress
         DefaultTincMainPrivateAddress
         DefaultTincMainName DefaultTincRemotePeers "" "" "".

(** What [ioutil.ReadFile] followed by [json.Unmarshal] leaves of the
    provider configuration file. *)
Inductive ConfigSource : Type :=
  | Unreadable (e : error)
  | Malformed (e : error)
  | Settings (configMap : gmap string TincConfig).

(** The fields of an entry after the nine [if] statements of
    [loadConfig]; [Name] defaults to the current value of the variable
    [tincMainName]. *)
Definition applyDefaults (mainName : string) (c : TincConfig) : TincConfig :=
  {| AutoConnect := orDefault (AutoConnect c) tincAutoConnect;
     ConnectTo := orDefault (ConnectTo c) DefaultTincRemotePeers;
     Device := orDefault (Device c) tincDeviceTunTap;
     DeviceType := orDefault (DeviceType c) tincDeviceTypeTap;
     Mode := orDefault (Mode c) tincModeSwitch;
     Name := orDefault (Name c) mainName;
     ExperimentalProtocol := ExperimentalProtocol c;
     CPU := orDefault (CPU c) defaultCPUCapacity;
     Memory := orDefault (Memory c) defaultMemoryCapacity;
     Pods := orDefault (Pods c) defaultPodCapacity |}.

Section Resolver.

(** [resource.ParseQuantity] of the Kubernetes API machinery, as far as
    [loadConfig] looks at it: whether the string parses. *)
Variable ParseQuantity : string → bool.

(** [loadConfig] returns the configuration together with the error. *)
Definition loadConfig (mainName : string) (src : ConfigSource) (nodeName : string)
  : TincConfig * option error :=
  match src with
  | Unreadable e => (zeroConfig, Some e)
  | Malformed e => (zeroConfig, Some e)
  | Settings configMap =>
      let config :=
        match configMap !! nodeName with
        | Some entry => applyDefaults mainName entry
        | None => zeroConfig
        end in
      if negb (ParseQuantity (CPU config))
      then (config, Some (Errorf ("Invalid CPU value " +:+ CPU config)))
      else if negb (ParseQuantity (Memory config))
      then (config, Some (Errorf ("Invalid memory value " +:+ Memory config)))
      else if negb (ParseQuantity (Pods config))
      then (config, Some (Errorf ("Invalid pods value " +:+ Pods config)))
      else (config, None)
  end.

End Resolver.

(** *** The quantity syntax

    The grammar documented for [resource.ParseQuantity]:
    a quantity is a signed number followed by a suffix; a number is
    [digits], [digits.digits], [digits.] or [.digits]; a suffix is a binary
    SI suffix (Ki Mi Gi Ti Pi Ei), a decimal SI suffix (n u m, nothing,
    k M G T P E) or a decimal exponent (e or E and a signed integer).

    This is the grammar of the documentation, not the parser itself: the
    library also takes a sign or a point without digits as zero and
    bounds the exponent.  It stands in for the parser in the examples
    only, on strings on which the two agree; the theorems take the
    parser as a parameter. *)

Definition isDigit (c : ascii) : bool :=
  let n := nat_of_ascii c in Nat.leb 48 n && Nat.leb n 57.

Fixpoint skipDigits (s : string) : nat * string :=
  match s with
  | String c rest =>
      if isDigit c then let '(n, r) := skipDigits rest in (S n, r) else (0, s)
  | EmptyString => (0, s)
  end.

Definition skipSign (s : string) : string :=
  match s with
  | String c rest =>
      if (Ascii.eqb c "+" || Ascii.eqb c "-")%bool then rest else s
  | EmptyString => s
  end.

Definition isSuffix (s : string) : bool :=
  if bool_decide (s ∈ ["Ki"; "Mi"; "Gi"; "Ti"; "Pi"; "Ei";
                       "n"; "u"; "m"; ""; "k"; "M"; "G"; "T"; "P"; "E"])
  then true
  else match s with
       | String c rest =>
           if (Ascii.eqb c "e" || Ascii.eqb c "E")%bool
           then let '(n, r) := skipDigits (skipSign rest) in
                negb (Nat.eqb n 0) && String.eqb r ""
           else false
       | EmptyString => false
       end.

Definition quantitySyntax (str : string) : bool :=
  let '(n1, r1) := skipDigits (skipSign str) in
  let '(n2, r2) :=
    match r1 with
    | String c rest => if Ascii.eqb c "." then skipDigits rest else (0, r1)
    | EmptyString => (0, r1)
    end in
  negb (Nat.eqb (n1 + n2) 0) && isSuffix r2.

(** ** Pods, as far as the provider reads them *)

Module v1.

Record ObjectMeta : Type := mkObjectMeta {
  Name : string;
  Namespace : string;
  Labels : gmap string string;
  Annotations : gmap string string;
}.

Record Container : Type := mkContainer {
  ContainerName : string;
  Image : string;
}.

Record PodSpec : Type := mkPodSpec {
  Containers : list Container;
}.

Record Pod : Type := mkPod {
  Meta : ObjectMeta;
  Spec : PodSpec;
}.

End v1.

(** ** Provider, host and state *)

Record TincProvider : Type := mkTincProvider {
  nodeName : string;
  pods : gmap string v1.Pod;
  tincAddress : string;
  tincSubnet : string;
  tincPort : Z;
  config : TincConfig;
}.

Definition setPods (p : TincProvider) (m : gmap string v1.Pod) : TincProvider :=
  mkTincProvider (nodeName p) m (tincAddress p) (tincSubnet p) (tincPort p) (config p).

(** What the provider has done to the host so far, the latest first: the
    calls of [os.MkdirAll] that returned no error (path and permission
    argument), the files written (contents and permission argument) and
    the command lines run.  What mode a directory or a new file gets from
    the permission argument is up to the host (umask, a directory that is
    there already), and is not modelled. *)
Record World : Type := mkWorld {
  dirs : list (string * N);
  files : gmap string (string * N);
  commands : list (list string);
}.

Definition emptyWorld : World := mkWorld [] ∅ [].

(** How the host answers: each call of [os.MkdirAll], [ioutil.WriteFile]
    and of a command may fail; a command also yields its output. *)
Record Host : Type := mkHost {
  os_MkdirAll : string → option error;
  ioutil_WriteFile : string → string → option error;
  exec_Command : list string → string * option error;
}.

Record State : Type := mkState {
  provider : TincProvider;
  vars : Vars;
  world : World;
}.

(** ** A state and error monad

    A Go method of the provider returns an error or a value; whatever it
    changed before returning the error stays changed. *)

Inductive result (A : Type) : Type :=
  | Ok (a : A)
  | Err (e : error).
Arguments Ok {A} a.
Arguments Err {A} e.

Definition M (A : Type) : Type := State → result A * State.

Definition ret {A} (a : A) : M A := fun s => (Ok a, s).
Definition fail {A} (e : error) : M A := fun s => (Err e, s).
Definition bind {A B} (m : M A) (k : A → M B) : M B :=
  fun s => match m s with
           | (Ok a, s') => k a s'
           | (Err e, s') => (Err e, s')
           end.
Definition lift {A} (r : result A) : M A := fun s => (r, s).
Definition get : M State := fun s => (Ok s, s).
Definition put (s : State) : M unit := fun _ => (Ok tt, s).

#[global] Instance M_ret : MRet M := @ret.
#[global] Instance M_bind : MBind M := fun A B k m => bind m k.

Definition modifyPods (f : gmap string v1.Pod → gmap string v1.Pod) : M unit :=
  fun s => (Ok tt, mkState (setPods (provider s) (f (pods (provider s)))) (vars s) (world s)).

Definition setVars (v : Vars) : M unit :=
  fun s => (Ok tt, mkState (provider s) v (world s)).

(** [os.MkdirAll(path, perm)]: the call is recorded when it returns no
    error, whether or not it had a directory to make. *)
Definition MkdirAll (h : Host) (path : string) (perm : N) : M unit :=
  fun s => match os_MkdirAll h path with
           | Some e => (Err e, s)
           | None =>
               let w := world s in
               (Ok tt, mkState (provider s) (vars s)
                               (mkWorld ((path, perm) :: dirs w) (files w) (commands w)))
           end.

(** [ioutil.WriteFile(path, data, perm)]; a failed write is taken to
    leave the file as it was. *)
Definition WriteFile (h : Host) (path data : string) (perm : N) : M unit :=
  fun s => match ioutil_WriteFile h path data with
           | Some e => (Err e, s)
           | None =>
               let w := world s in
               (Ok tt, mkState (provider s) (vars s)
                               (mkWorld (dirs w) (<[path := (data, perm)]> (files w)) (commands w)))
           end.

(** [exec.Command(argv...).Output()] and [.CombinedOutput()]: the
    command is run, and its output and error are handed back. *)
Definition Command (h : Host) (argv : list string) : M (string * option error) :=
  fun s => let w := world s in
           (Ok (exec_Command h argv),
            mkState (provider s) (vars s)
                    (mkWorld (dirs w) (files w) (argv :: commands w))).

(** File modes 0644, 0755 and 0775. *)
Definition mode_0644 : N := 420.
Definition mode_0755 : N := 493.
Definition mode_0775 : N := 509.

(** ** Keys *)

Definition buildKeyFromNames (namespace name : string) : result string :=
  Ok (namespace +:+ "-" +:+ name).

Definition buildKey (pod : v1.Pod) : result string :=
  if String.eqb (v1.Namespace (v1.Meta pod)) "" then Err (Errorf "pod namespace not found")
  else if String.eqb (v1.Name (v1.Meta pod)) "" then Err (Errorf "pod name not found")
  else buildKeyFromNames (v1.Namespace (v1.Meta pod)) (v1.Name (v1.Meta pod)).

(** ** The generated files *)

(** The startup configuration up to the lines of the node itself. *)
Definition startupHead (p : TincProvider) (v : Vars) : string :=
  let data := "add AutoConnect = " +:+ AutoConnect (config p) +:+ nl in
  let data := data +:+ ("add ConnectTo = " +:+ tincPeerName v +:+ nl) in
  let data := data +:+ ("add Device = " +:+ Device (config p) +:+ nl) in
  let data := data +:+ ("add DeviceType = " +:+ DeviceType (config p) +:+ nl) in
  let data := data +:+ ("add Mode = " +:+ Mode (config p) +:+ nl) in
  let data := data +:+ ("add Name = " +:+ tincMainName v +:+ nl) in
  let nodeMain := Name (config p) in
  let data := data +:+ ("add " +:+ nodeMain +:+ ".Address = " +:+ myAddress v +:+ nl) in
  let data := data +:+ ("add " +:+ nodeMain +:+ ".Subnet = " +:+ tincSubnet p +:+ nl) in
  let data := data +:+ ("add " +:+ nodeMain +:+ ".Port = " +:+ fmt_d (tincPort p) +:+ nl) in
  data.

(** One turn of the loop over the peers. *)
Definition addPeer (p : TincProvider) (v : Vars) (data nodePeer : string) : string :=
  let data := data +:+ ("add " +:+ nodePeer +:+ ".Address = " +:+ peerAddress v +:+ nl) in
  let data := data +:+ ("add " +:+ nodePeer +:+ ".Subnet = " +:+ tincSubnet p +:+ nl) in
  let data := data +:+ ("add " +:+ nodePeer +:+ ".Port = " +:+ fmt_d (tincPort p) +:+ nl) in
  data.

(** The startup configuration for the peers named in [peers], a
    space-separated list; [createStartupConfig] passes
    [DefaultTincRemotePeers]. *)
Definition startupData (p : TincProvider) (v : Vars) (peers : string) : string :=
  let nodePeers := Fields peers in
  fold_left (addPeer p v) nodePeers (startupHead p v).

(** The contents of vk-main.conf. *)
Definition mainData (p : TincProvider) (v : Vars) : string :=
  let dataMain := "AutoConnect = " +:+ AutoConnect (config p) +:+ nl in
  let dataMain := dataMain +:+ ("ConnectTo = " +:+ tincPeerName v +:+ nl) in
  let dataMain := dataMain +:+ ("Device = " +:+ Device (config p) +:+ nl) in
  let dataMain := dataMain +:+ ("DeviceType = " +:+ DeviceType (config p) +:+ nl) in
  let dataMain := dataMain +:+ ("ExperimentalProtocol = " +:+ ExperimentalProtocol (config p) +:+ nl) in
  let dataMain := dataMain +:+ ("Mode = " +:+ Mode (config p) +:+ nl) in
  let dataMain := dataMain +:+ ("Name = " +:+ tincMainName v +:+ nl) in
  dataMain.

(** The contents of vk-tinc-up. *)
Definition scriptData (v : Vars) : string :=
  let dataScr := "#!/bin/bash" +:+ nl in
  let dataScr := dataScr +:+ ("ip link set tap0 up" +:+ nl) in
  let dataScr := dataScr +:+ ("ip addr add " +:+ privateAddress v +:+ "/24 dev tap0" +:+ nl) in
  dataScr.

Definition createStartupConfig (h : Host) : M unit :=
  s ← get;
  let p := provider s in
  let v := vars s in
  let data := startupHead p v in
  MkdirAll h (filepath_Join ["/tmp"; tincMainName v]) mode_0775;;
  let nodePeers := Fields DefaultTincRemotePeers in
  let data := fold_left (addPeer p v) nodePeers data in
  WriteFile h (tincStartupConfigHost v) data mode_0644;;
  WriteFile h (tincMainConfigHost v) (mainData p v) mode_0644;;
  WriteFile h (tincUpScriptHost v) (scriptData v) mode_0755;;
  ret tt.

(** ** The pod operations

    The calls of [log.Printf] and [fmt.Printf] are left out. *)

(** The assignments to the package variables at the start of [CreatePod]. *)
Definition selectRole (pod : v1.Pod) (v : Vars) : Vars :=
  let vpnMode := default "" (v1.Annotations (v1.Meta pod) !! "vpnmode") in
  let '(private, mainName, peerName) :=
    if String.eqb vpnMode "peer"
    then (DefaultTincPeerPrivateAddress, DefaultTincRemotePeers, DefaultTincMainName)
    else (DefaultTincMainPrivateAddress, DefaultTincMainName, DefaultTincRemotePeers) in
  mkVars (myAddress v) (peerAddress v) private mainName peerName
         (filepath_Join ["/tmp"; mainName; "vk-startup-config.conf"])
         (filepath_Join ["/tmp"; mainName; "vk-main.conf"])
         (filepath_Join ["/tmp"; mainName; "vk-tinc-up"]).

Definition dockerRunArgs (v : Vars) : list string :=
  [dockerClient; "run"; "--privileged"; "--name=" +:+ tincMainName v;
   "--detach"; "--rm";
   "--volume=" +:+ tincStartupConfigHost v +:+ ":" +:+ tincStartupConfigContainer;
   "--volume=" +:+ tincMainConfigHost v +:+ ":" +:+ tincMainConfigContainer;
   "--volume=" +:+ tincUpScriptHost v +:+ ":" +:+ tincUpScriptContainer;
   tincImageName].

Definition CreatePod (h : Host) (pod : v1.Pod) : M unit :=
  key ← lift (buildKey pod);
  modifyPods (insert key pod);;
  s ← get;
  setVars (selectRole pod (vars s));;
  createStartupConfig h;;
  s ← get;
  Command h [dockerClient; "rm"; "--force"; tincMainName (vars s)];;
  r ← Command h (dockerRunArgs (vars s));
  match r with
  | (out, Some err) =>
      fail (Errorf ("failed to run docker-run:" +:+ nl +:+ "out: " +:+ out +:+ nl
                    +:+ "err: " +:+ Error err +:+ nl))
  | (_, None) => ret tt
  end.

Definition UpdatePod (pod : v1.Pod) : M unit :=
  key ← lift (buildKey pod);
  modifyPods (insert key pod);;
  ret tt.

Definition DeletePod (h : Host) (pod : v1.Pod) : M unit :=
  key ← lift (buildKey pod);
  s ← get;
  match pods (provider s) !! key with
  | None => fail (NotFound (Errorf "pod not found"))
  | Some _ =>
      modifyPods (delete key);;
      r ← Command h [dockerClient; "rm"; "--force"; Name (config (provider s))];
      match r with
      | (out, Some err) =>
          fail (Errorf ("failed to run docker-rm:" +:+ nl +:+ "out: " +:+ out +:+ nl
                        +:+ "err: " +:+ Error err +:+ nl))
      | (_, None) => ret tt
      end
  end.

(** The double quote of the message of [GetPod]. *)
Definition dq : string := String (ascii_of_nat 34) EmptyString.

Definition GetPod (namespace name : string) : M v1.Pod :=
  key ← lift (buildKeyFromNames namespace name);
  s ← get;
  match pods (provider s) !! key with
  | Some pod => ret pod
  | None =>
      fail (NotFound (Errorf ("pod " +:+ dq +:+ namespace +:+ "/" +:+ name +:+ dq
                              +:+ " is not known to the provider")))
  end.

(** [NewTincProvider] *)
Definition NewTincProvider (ParseQuantity : string → bool) (v : Vars)
    (providerConfig : ConfigSource) (nodeName tincAddress tincSubnet : string)
    (tincPort : Z) : result TincProvider :=
  match loadConfig ParseQuantity (tincMainName v) providerConfig nodeName with
  | (_, Some err) => Err err
  | (config, None) => Ok (mkTincProvider nodeName ∅ tincAddress tincSubnet tincPort config)
  end.

(** ** Reading the generated files as lines of settings *)

(** A text made of the given lines, each ended by a line feed. *)
Fixpoint unlines (ls : list string) : string :=
  match ls with
  | [] => ""
  | l :: ls' => l +:+ nl +:+ unlines ls'
  end.

(** [add <Key> = <Value>], a line of the startup configuration. *)
Definition addLine (kv : string * string) : string :=
  "add " +:+ kv.1 +:+ " = " +:+ kv.2.

(** [<Key> = <Value>], a line of the main configuration. *)
Definition directLine (kv : string * string) : string :=
  kv.1 +:+ " = " +:+ kv.2.

(** The six scalar settings and the values the provider gives them. *)
Definition scalarSettings (p : TincProvider) (v : Vars) : list (string * string) :=
  [("AutoConnect", AutoConnect (config p));
   ("ConnectTo", tincPeerName v);
   ("Device", Device (config p));
   ("DeviceType", DeviceType (config p));
   ("Mode", Mode (config p));
   ("Name", tincMainName v)].

(** Address, subnet and port of a node. *)
Definition nodeBinding (p : TincProvider) (node address : string) : list (string * string) :=
  [(node +:+ ".Address", address);
   (node +:+ ".Subnet", tincSubnet p);
   (node +:+ ".Port", fmt_d (tincPort p))].

(** The text cut after each line feed; a last piece without one is kept. *)
Fixpoint splitLinesFrom (cur : string) (s : string) : list string :=
  match s with
  | EmptyString => if String.eqb cur "" then [] else [cur]
  | String c rest =>
      if Ascii.eqb c (ascii_of_nat 10) then cur :: splitLinesFrom "" rest
      else splitLinesFrom (cur +:+ String c "") rest
  end.

Definition splitLines (s : string) : list string := splitLinesFrom "" s.

(** The errors of [buildKey]. *)
Definition InvalidKey (e : error) : Prop :=
  e = Errorf "pod namespace not found" ∨ e = Errorf "pod name not found".

(** An error is a not-found error when [strongerrors.NotFound] made it. *)
Definition IsNotFound (e : error) : Prop := ∃ cause, e = NotFound cause.

(** The string has no hyphen in it. *)
Fixpoint hyphenFree (s : string) : bool :=
  match s with
  | EmptyString => true
  | String c rest => negb (Ascii.eqb c "-") && hyphenFree rest
  end.

(** The key of a pod is built from this pair. *)
Definition namesOf (pod : v1.Pod) : string * string :=
  (v1.Namespace (v1.Meta pod), v1.Name (v1.Meta pod)).

(** ** Example pods, providers and hosts *)

(** A pod with these names and nothing else. *)
Definition podNamed (namespace name : string) : v1.Pod :=
  v1.mkPod (v1.mkObjectMeta name namespace ∅ ∅) (v1.mkPodSpec []).

(** The configuration of an entry with every field left blank. *)
Definition exampleConfig : TincConfig :=
  mkTincConfig "yes" "nodepeer" "/dev/net/tun" "tap" "switch" "nodemain" ""
               "20" "100Gi" "20".

Definition exampleProvider : TincProvider :=
  mkTincProvider "vkubelet-tinc-0" ∅ "192.168.99.100"
                 DefaultTincSubnet DefaultTincPort exampleConfig.

(** A host on which every file operation works and [docker run] fails. *)
Definition failingRunHost : Host :=
  mkHost (λ _, None) (λ _ _, None)
         (λ argv, match argv with
                  | _ :: "run" :: _ =>
                      ("docker: Error response from daemon.", Some (HostError "exit status 125"))
                  | _ => ("", None)
                  end).

(** A host on which everything works. *)
Definition workingHost : Host :=
  mkHost (λ _, None) (λ _ _, None) (λ _, ("", None)).

(** A host on which the directory under /tmp cannot be made. *)
Definition failingMkdirHost : Host :=
  mkHost (λ _, Some (HostError "mkdir /tmp/nodemain: permission denied"))
         (λ _ _, None) (λ _, ("", None)).

(** A provider whose configuration asks to connect to two peers. *)
Definition twoPeersProvider : TincProvider :=
  mkTincProvider "vkubelet-tinc-0" ∅ "192.168.99.100"
                 DefaultTincSubnet DefaultTincPort
                 (mkTincConfig "yes" "peerA peerB" "/dev/net/tun" "tap" "switch" "nodemain" ""
                               "20" "100Gi" "20").

(** A fresh provider with the default configuration, nothing done yet. *)
Definition exampleState : State := mkState exampleProvider initVars emptyWorld.

(** The same provider with one pod stored. *)
Definition storedState : State :=
  mkState (setPods exampleProvider
             {[ "default-web" :=
                  v1.mkPod (v1.mkObjectMeta "web" "default" {[ "app" := "old" ]} ∅)
                           (v1.mkPodSpec [v1.mkContainer "nginx" "nginx:1.0"]) ]})
          initVars emptyWorld.

(** A computation that leaves the provider, and so the pod map, alone. *)
Definition keepsProvider {A} (m : M A) : Prop :=
  ∀ s r s', m s = (r, s') → provider s' = provider s.

(** ** Status, listing and node description *)

Module status.

Record PodCondition : Type := mkPodCondition {
  Type_ : string;
  Status : string;
}.

(** [State.Running.StartedAt] is kept as [Running]; the other states are
    never set. *)
Record ContainerStatus : Type := mkContainerStatus {
  Name : string;
  Image : string;
  Ready : bool;
  RestartCount : Z;
  Running : option Z;
}.

Record PodStatus : Type := mkPodStatus {
  Phase : string;
  HostIP : string;
  PodIP : string;
  StartTime : option Z;
  Conditions : list PodCondition;
  ContainerStatuses : list ContainerStatus;
}.

End status.

(** One turn of the loop of [GetPodStatus]. *)
Definition appendContainerStatus (now : Z) (st : status.PodStatus) (container : v1.Container)
  : status.PodStatus :=
  status.mkPodStatus (status.Phase st) (status.HostIP st) (status.PodIP st)
    (status.StartTime st) (status.Conditions st)
    (status.ContainerStatuses st
     ++ [status.mkContainerStatus (v1.ContainerName container) (v1.Image container)
           true 0 (Some now)]).

(** [GetPodStatus]; [now] is what [time.Now] returns. *)
Definition GetPodStatus (now : Z) (namespace name : string) : M status.PodStatus :=
  let st :=
    status.mkPodStatus "Running" "1.2.3.4" "5.6.7.8" (Some now)
      [status.mkPodCondition "Initialized" "True";
       status.mkPodCondition "Ready" "True";
       status.mkPodCondition "PodScheduled" "True"]
      [] in
  pod ← GetPod namespace name;
  mret (fold_left (appendContainerStatus now) (v1.Containers (v1.Spec pod)) st).

(** [GetPods].  Go ranges over the map in an unspecified order; here the
    order is the one of [map_to_list], and nothing is proved of it. *)
Definition GetPods : M (list v1.Pod) :=
  s ← get;
  mret (fold_left (λ pods kv, pods ++ [kv.2]) (map_to_list (pods (provider s))) []).

(** [resource.MustParse] panics where [resource.ParseQuantity] fails;
    [None] stands for the panic, and a parsed quantity is kept as the
    string it was read from. *)
Definition MustParse (ParseQuantity : string → bool) (str : string) : option string :=
  if ParseQuantity str then Some str else None.

(** [Capacity] *)
Definition Capacity (ParseQuantity : string → bool) (p : TincProvider)
  : option (gmap string string) :=
  cpu ← MustParse ParseQuantity (CPU (config p));
  memory ← MustParse ParseQuantity (Memory (config p));
  pods ← MustParse ParseQuantity (Pods (config p));
  Some ({[ "cpu" := cpu; "memory" := memory; "pods" := pods ]} : gmap string string).

(** [NodeAddresses]: type and address. *)
Definition NodeAddresses (p : TincProvider) : list (string * string) :=
  [("InternalIP", tincAddress p)].

(** [NodeDaemonEndpoints]: the port of the kubelet endpoint. *)
Definition NodeDaemonEndpoints (p : TincProvider) : Z := tincPort p.

(** ** Registration *)

(** The fields of [InitConfig] that [initTinc] reads. *)
Record InitConfig : Type := mkInitConfig {
  ConfigPath : string;
  NodeName : string;
  InternalIP : string;
}.

(** [initTinc]; [readConfig] is what reading and decoding the file at a
    path gives. *)
Definition initTinc (ParseQuantity : string → bool) (v : Vars)
    (readConfig : string → ConfigSource) (cfg : InitConfig) : result TincProvider :=
  NewTincProvider ParseQuantity v (readConfig (ConfigPath cfg))
                  (NodeName cfg) (InternalIP cfg) DefaultTincSubnet DefaultTincPort.

(** ** Sequences of calls *)

(** A call of the provider by its user; each call meets the host in the
    state it is in then. *)
Inductive Call : Type :=
  | CallCreatePod (h : Host) (pod : v1.Pod)
  | CallUpdatePod (pod : v1.Pod)
  | CallDeletePod (h : Host) (pod : v1.Pod)
  | CallGetPod (namespace name : string)
  | CallGetPodStatus (now : Z) (namespace name : string)
  | CallGetPods.

(** The state a call leaves, whatever it returns. *)
Definition stateAfter (c : Call) (s : State) : State :=
  match c with
  | CallCreatePod h pod => (CreatePod h pod s).2
  | CallUpdatePod pod => (UpdatePod pod s).2
  | CallDeletePod h pod => (DeletePod h pod s).2
  | CallGetPod namespace name => (GetPod namespace name s).2
  | CallGetPodStatus now namespace name => (GetPodStatus now namespace name s).2
  | CallGetPods => (GetPods s).2
  end.

Definition runCalls (cs : list Call) (s : State) : State :=
  fold_left (λ s c, stateAfter c s) cs s.

(** Every pod of the map is stored under the key built from it. *)
Definition wellKeyed (m : gmap string v1.Pod) : Prop :=
  ∀ key pod, m !! key = Some pod → buildKey pod = Ok key.

(** The package variables hold the values of one of the two roles. *)
Definition roleVars (v : Vars) : Prop :=
  myAddress v = DefaultTincMainAddress
  ∧ peerAddress v = DefaultTincPeerAddress
  ∧ ((privateAddress v, tincMainName v, tincPeerName v)
     = (DefaultTincMainPrivateAddress, DefaultTincMainName, DefaultTincRemotePeers)
     ∨ (privateAddress v, tincMainName v, tincPeerName v)
       = (DefaultTincPeerPrivateAddress, DefaultTincRemotePeers, DefaultTincMainName)).

(** The host [h] with another answer to every [docker rm]. *)
Definition withRmAnswer (answer : string * option error) (h : Host) : Host :=
  mkHost (os_MkdirAll h) (ioutil_WriteFile h)
         (λ argv, match argv with
                  | _ :: "rm" :: _ => answer
                  | _ => exec_Command h argv
                  end).

(** The nine settings that [loadConfig] defaults. *)
Definition configFields : list (TincConfig → string) :=
  [AutoConnect; ConnectTo; Device; DeviceType; Mode; Name; CPU; Memory; Pods].

(** * Properties *)

(** ** Strings *)

Lemma append_cons (x : ascii) (a b : string) :
  String x a +:+ b = String x (a +:+ b).
Proof. reflexivity. Qed.

Lemma append_assoc (a b c : string) : (a +:+ b) +:+ c = a +:+ (b +:+ c).
Proof. induction a as [|x a IH]; [reflexivity|]. now rewrite !append_cons, IH. Qed.

Lemma append_nil_r (a : string) : a +:+ "" = a.
Proof. induction a as [|x a IH]; [reflexivity|]. now rewrite append_cons, IH. Qed.

Lemma unlines_app (xs ys : list string) :
  unlines (xs ++ ys) = unlines xs +:+ unlines ys.
Proof.
  induction xs as [|x xs IH]; cbn [unlines app]; [reflexivity|].
  now rewrite IH, !append_assoc.
Qed.

Lemma eqb_empty_false (s : string) : s ≠ "" → String.eqb s "" = false.
Proof. intros H. now apply String.eqb_neq. Qed.

(** Flattens the nested concatenations of a generated text. *)
Ltac flatten_text :=
  cbn [unlines map app flat_map fst snd];
  rewrite ?append_assoc, ?append_nil_r.

(** ** Configuration loading *)

Section ResolverFacts.

Variable ParseQuantity : string → bool.
Variable mainName : string.

(** An entry whose fields are all blank resolves to the defaults, as
    soon as the default quantities parse. *)
Lemma loadConfig_blank_entry (configMap : gmap string TincConfig) (nodeName : string) :
  ParseQuantity "20" = true →
  ParseQuantity "100Gi" = true →
  configMap !! nodeName = Some zeroConfig →
  loadConfig ParseQuantity mainName (Settings configMap) nodeName
  = (mkTincConfig "yes" "nodepeer" "/dev/net/tun" "tap" "switch" mainName ""
                  "20" "100Gi" "20", None).
Proof.
  intros H20 H100 Hin. unfold loadConfig. rewrite Hin.
  cbn. unfold defaultCPUCapacity, defaultMemoryCapacity, defaultPodCapacity.
  now rewrite H20, H100.
Qed.

(** C1 (as the code behaves): when the node name has no entry in the
    settings, and the quantity parser rejects the empty string,
    [loadConfig] leaves every field blank and fails on the CPU value. *)
Theorem loadConfig_absent_entry (configMap : gmap string TincConfig) (nodeName : string) :
  ParseQuantity "" = false →
  configMap !! nodeName = None →
  loadConfig ParseQuantity mainName (Settings configMap) nodeName
  = (zeroConfig, Some (Errorf "Invalid CPU value ")).
Proof.
  intros Hempty Hout. unfold loadConfig. rewrite Hout.
  cbn. now rewrite Hempty.
Qed.

End ResolverFacts.

Lemma loadConfig_absent_entry_witness :
  loadConfig quantitySyntax "nodemain" (Settings ∅) "vkubelet-tinc-0"
  = (zeroConfig, Some (Errorf "Invalid CPU value ")).
Proof.
  apply (loadConfig_absent_entry quantitySyntax "nodemain" ∅ "vkubelet-tinc-0").
  - reflexivity.
  - reflexivity.
Defined.

(** With an empty settings file the provider is not constructed. *)
Example NewTincProvider_empty_settings :
  NewTincProvider quantitySyntax initVars (Settings ∅) "vkubelet-tinc-0"
                  "192.168.99.100" DefaultTincSubnet DefaultTincPort
  = Err (Errorf "Invalid CPU value ").
Proof. reflexivity. Qed.

(** The same file with an empty entry for the node gives the defaults. *)
Example NewTincProvider_blank_entry :
  NewTincProvider quantitySyntax initVars
                  (Settings {[ "vkubelet-tinc-0" := zeroConfig ]}) "vkubelet-tinc-0"
                  "192.168.99.100" DefaultTincSubnet DefaultTincPort
  = Ok (mkTincProvider "vkubelet-tinc-0" ∅ "192.168.99.100" "10.1.1.0/24" 655
          (mkTincConfig "yes" "nodepeer" "/dev/net/tun" "tap" "switch" "nodemain" ""
                        "20" "100Gi" "20")).
Proof. vm_compute. reflexivity. Qed.

(** ** Keys *)

Lemma buildKey_nonempty (pod : v1.Pod) :
  v1.Namespace (v1.Meta pod) ≠ "" →
  v1.Name (v1.Meta pod) ≠ "" →
  buildKey pod = Ok (v1.Namespace (v1.Meta pod) +:+ "-" +:+ v1.Name (v1.Meta pod)).
Proof.
  intros Hns Hname. unfold buildKey, buildKeyFromNames.
  now rewrite (eqb_empty_false _ Hns), (eqb_empty_false _ Hname).
Qed.

Lemma buildKey_empty (pod : v1.Pod) :
  v1.Namespace (v1.Meta pod) = "" ∨ v1.Name (v1.Meta pod) = "" →
  ∃ e, InvalidKey e ∧ buildKey pod = Err e.
Proof.
  intros H. unfold buildKey, InvalidKey.
  destruct (String.eqb_spec (v1.Namespace (v1.Meta pod)) "") as [Hns|Hns].
  - eauto.
  - destruct H as [H|H]; [contradiction|]. rewrite H. cbn. eauto.
Qed.

(** A key whose namespace has no hyphen splits in one way only. *)
Lemma key_split (ns1 ns2 n1 n2 : string) :
  hyphenFree ns1 = true → hyphenFree ns2 = true →
  ns1 +:+ "-" +:+ n1 = ns2 +:+ "-" +:+ n2 →
  ns1 = ns2 ∧ n1 = n2.
Proof.
  revert ns2. induction ns1 as [|c ns1 IH]; intros [|d ns2] H1 H2 Heq.
  - cbn in Heq. now inversion Heq.
  - rewrite append_cons in Heq. cbn in Heq. inversion Heq; subst d.
    cbn in H2. discriminate.
  - rewrite append_cons in Heq. cbn in Heq. inversion Heq; subst c.
    cbn in H1. discriminate.
  - rewrite !append_cons in Heq. inversion Heq; subst d.
    cbn in H1, H2. apply andb_prop in H1 as [_ H1]. apply andb_prop in H2 as [_ H2].
    destruct (IH ns2 H1 H2) as [-> ->]; [assumption | split; reflexivity].
Qed.

(** C2 (the code at the failing input): the pods a-b/c and a/b-c, two
    different pairs of non-empty names, get the one key a-b-c; so
    [buildKey] is not injective on the pairs of non-empty names. *)
Lemma buildKey_collision :
  buildKey (podNamed "a-b" "c") = buildKey (podNamed "a" "b-c")
  ∧ namesOf (podNamed "a-b" "c") ≠ namesOf (podNamed "a" "b-c")
  ∧ ¬ (∀ pod1 pod2 : v1.Pod,
          v1.Namespace (v1.Meta pod1) ≠ "" → v1.Name (v1.Meta pod1) ≠ "" →
          v1.Namespace (v1.Meta pod2) ≠ "" → v1.Name (v1.Meta pod2) ≠ "" →
          (buildKey pod1 = buildKey pod2 ↔ namesOf pod1 = namesOf pod2)).
Proof.
  split; [reflexivity|]. split; [discriminate|].
  intros H.
  specialize (H (podNamed "a-b" "c") (podNamed "a" "b-c")).
  cbn in H. destruct H as [H _]; try discriminate.
  specialize (H eq_refl). discriminate.
Qed.

(** Where the key is injective: for non-empty names with hyphen-free
    namespaces two keys are equal exactly when the pairs of names are. *)
Theorem buildKey_injective_hyphenFree (pod1 pod2 : v1.Pod) :
  v1.Namespace (v1.Meta pod1) ≠ "" → v1.Name (v1.Meta pod1) ≠ "" →
  v1.Namespace (v1.Meta pod2) ≠ "" → v1.Name (v1.Meta pod2) ≠ "" →
  hyphenFree (v1.Namespace (v1.Meta pod1)) = true →
  hyphenFree (v1.Namespace (v1.Meta pod2)) = true →
  (buildKey pod1 = buildKey pod2 ↔ namesOf pod1 = namesOf pod2).
Proof.
  intros Hns1 Hn1 Hns2 Hn2 Hf1 Hf2.
  rewrite (buildKey_nonempty pod1), (buildKey_nonempty pod2) by assumption.
  unfold namesOf. split.
  - intros Heq. inversion Heq as [Hkey].
    destruct (key_split _ _ _ _ Hf1 Hf2 Hkey) as [-> ->]. reflexivity.
  - intros Heq. inversion Heq as [[Hns Hn]]. now rewrite Hns, Hn.
Qed.

Lemma buildKey_injective_hyphenFree_witness :
  buildKey (podNamed "default" "web-1") = buildKey (podNamed "default" "web")
  ↔ namesOf (podNamed "default" "web-1") = namesOf (podNamed "default" "web").
Proof.
  apply (buildKey_injective_hyphenFree (podNamed "default" "web-1")
                                       (podNamed "default" "web"));
    cbn; first [discriminate | reflexivity].
Defined.

(** ** The generated files *)

(** The loop over the peers appends one binding per peer, in order. *)
Lemma peers_loop (p : TincProvider) (v : Vars) (nodePeers : list string) (data : string) :
  fold_left (addPeer p v) nodePeers data
  = data +:+ unlines (map addLine
                        (flat_map (λ nodePeer, nodeBinding p nodePeer (peerAddress v))
                                  nodePeers)).
Proof.
  revert data. induction nodePeers as [|nodePeer rest IH]; intros data.
  - cbn [fold_left flat_map map unlines]. now rewrite append_nil_r.
  - cbn [fold_left]. rewrite IH. unfold addPeer, nodeBinding, addLine.
    flatten_text. reflexivity.
Qed.

Lemma startupHead_layout (p : TincProvider) (v : Vars) :
  startupHead p v
  = unlines (map addLine (scalarSettings p v))
    +:+ unlines (map addLine (nodeBinding p (Name (config p)) (myAddress v))).
Proof.
  unfold startupHead, scalarSettings, nodeBinding, addLine.
  flatten_text. reflexivity.
Qed.

(** The startup configuration as lines of settings. *)
Lemma startupData_lines (p : TincProvider) (v : Vars) (peers : string) :
  startupData p v peers
  = unlines (map addLine
               (scalarSettings p v
                ++ nodeBinding p (Name (config p)) (myAddress v)
                ++ flat_map (λ nodePeer, nodeBinding p nodePeer (peerAddress v))
                            (Fields peers))).
Proof.
  unfold startupData. rewrite peers_loop, startupHead_layout.
  now rewrite !map_app, !unlines_app, append_assoc.
Qed.

(** Two peers give two bindings after the one of the node. *)
Example startupData_two_peers :
  splitLines (startupData exampleProvider initVars "peerA peerB")
  = ["add AutoConnect = yes"; "add ConnectTo = nodepeer";
     "add Device = /dev/net/tun"; "add DeviceType = tap";
     "add Mode = switch"; "add Name = nodemain";
     "add nodemain.Address = 172.17.0.2"; "add nodemain.Subnet = 10.1.1.0/24";
     "add nodemain.Port = 655";
     "add peerA.Address = 172.17.0.3"; "add peerA.Subnet = 10.1.1.0/24";
     "add peerA.Port = 655";
     "add peerB.Address = 172.17.0.3"; "add peerB.Subnet = 10.1.1.0/24";
     "add peerB.Port = 655"].
Proof. vm_compute. reflexivity. Qed.

(** C3 (as stated, refuted): the main configuration of the example
    provider is not the six scalar settings alone. *)
Lemma mainData_not_six_lines :
  mainData exampleProvider initVars
  ≠ unlines (map directLine (scalarSettings exampleProvider initVars)).
Proof. vm_compute. discriminate. Qed.

(** C3 (amended): the main configuration holds the six scalar settings of
    the startup configuration, with the same values and without [add], and
    one more line, [ExperimentalProtocol], between [DeviceType] and [Mode]. *)
Theorem mainData_layout (p : TincProvider) (v : Vars) :
  mainData p v
  = unlines (map directLine
               (take 4 (scalarSettings p v)
                ++ [("ExperimentalProtocol", ExperimentalProtocol (config p))]
                ++ drop 4 (scalarSettings p v)))
  ∧ ∀ peers,
      startupData p v peers
      = unlines (map addLine (scalarSettings p v))
        +:+ unlines (map addLine
                       (nodeBinding p (Name (config p)) (myAddress v)
                        ++ flat_map (λ nodePeer, nodeBinding p nodePeer (peerAddress v))
                                    (Fields peers))).
Proof.
  split.
  - unfold mainData, scalarSettings, directLine.
    cbn [take drop]. flatten_text. reflexivity.
  - intros peers. now rewrite startupData_lines, map_app, unlines_app.
Qed.

(** C9: the script is the shebang line, the command that brings the
    device up and the command that gives it the private address with a
    24-bit mask, in this order; for either role these are its three lines. *)
Theorem scriptData_layout (v : Vars) :
  scriptData v
  = unlines ["#!/bin/bash";
             "ip link set tap0 up";
             "ip addr add " +:+ privateAddress v +:+ "/24 dev tap0"]
  ∧ ∀ pod,
      splitLines (scriptData (selectRole pod v))
      = ["#!/bin/bash";
         "ip link set tap0 up";
         "ip addr add " +:+ privateAddress (selectRole pod v) +:+ "/24 dev tap0"].
Proof.
  split.
  - unfold scriptData. flatten_text. reflexivity.
  - intros pod. unfold selectRole.
    destruct (String.eqb _ "peer"); reflexivity.
Qed.

(** ** The pod operations *)

(** Unfolds the monad down to functions on states. *)
Ltac run_monad :=
  unfold mbind, mret, M_bind, M_ret, bind, ret, fail, lift, get, put,
    modifyPods, setVars in *.

Section Frame.

Context {A B : Type}.

Lemma keeps_ret (a : A) : keepsProvider (mret a : M A).
Proof. intros s r s' H. run_monad. now inversion H. Qed.

Lemma keeps_fail (e : error) : keepsProvider (fail e : M A).
Proof. intros s r s' H. run_monad. now inversion H. Qed.

Lemma keeps_get : keepsProvider get.
Proof. intros s r s' H. run_monad. now inversion H. Qed.

Lemma keeps_bind (m : M A) (k : A → M B) :
  keepsProvider m → (∀ a, keepsProvider (k a)) → keepsProvider (m ≫= k).
Proof.
  intros Hm Hk s r s' H. run_monad.
  destruct (m s) as [[a|e] s1] eqn:Hms.
  - rewrite (Hk a _ _ _ H). exact (Hm _ _ _ Hms).
  - inversion H; subst. exact (Hm _ _ _ Hms).
Qed.

End Frame.

Lemma keeps_setVars (v : Vars) : keepsProvider (setVars v).
Proof. intros s r s' H. run_monad. now inversion H. Qed.

Lemma keeps_MkdirAll (h : Host) (path : string) (perm : N) :
keepsProvider (MkdirAll h path perm).
Proof.
  intros s r s' H. unfold MkdirAll in H.
  destruct (os_MkdirAll h path); now inversion H.
Qed.

Lemma keeps_WriteFile (h : Host) (path data : string) (perm : N) :
  keepsProvider (WriteFile h path data perm).
Proof.
  intros s r s' H. unfold WriteFile in H.
  destruct (ioutil_WriteFile h path data); now inversion H.
Qed.

Lemma keeps_Command (h : Host) (argv : list string) : keepsProvider (Command h argv).
Proof. intros s r s' H. unfold Command in H. now inversion H. Qed.

Create HintDb frame.
#[local] Hint Resolve keeps_ret keeps_fail keeps_get keeps_setVars
  keeps_MkdirAll keeps_WriteFile keeps_Command : frame.

Ltac frame_step :=
  repeat first
    [ apply keeps_bind; [| intros ? ]
    | solve [ auto with frame ]
    | match goal with
      | |- keepsProvider (match ?r with _ => _ end) => destruct r as [? [?|]]
      end ].

Lemma keeps_createStartupConfig (h : Host) : keepsProvider (createStartupConfig h).
Proof. unfold createStartupConfig. frame_step. Qed.

#[local] Hint Resolve keeps_createStartupConfig : frame.

Lemma bind_lift_Ok {A B} (a : A) (k : A → M B) (s : State) :
  (lift (Ok a) ≫= k) s = k a s.
Proof. reflexivity. Qed.

Lemma bind_lift_Err {A B} (e : error) (k : A → M B) (s : State) :
  (lift (Err e) ≫= k) s = (Err e, s).
Proof. reflexivity. Qed.

Lemma bind_modifyPods {B} (f : gmap string v1.Pod → gmap string v1.Pod)
    (k : unit → M B) (s : State) :
  (modifyPods f ≫= k) s
  = k tt (mkState (setPods (provider s) (f (pods (provider s)))) (vars s) (world s)).
Proof. reflexivity. Qed.

Lemma bind_get {B} (k : State → M B) (s : State) : (get ≫= k) s = k s s.
Proof. reflexivity. Qed.

(** Whatever the outcome, [CreatePod] on a pod with a key leaves the pod
    map with the pod put under that key and nothing else changed in it. *)
Lemma CreatePod_pods (h : Host) (pod : v1.Pod) (key : string) (s s' : State) (r : result unit) :
  buildKey pod = Ok key →
  CreatePod h pod s = (r, s') →
  provider s' = setPods (provider s) (<[key := pod]> (pods (provider s))).
Proof.
  intros Hkey Hrun. unfold CreatePod in Hrun.
  rewrite Hkey, bind_lift_Ok, bind_modifyPods in Hrun.
  match type of Hrun with
  | ?m _ = _ => assert (Hrest : keepsProvider m) by frame_step
  end.
  exact (Hrest _ _ _ Hrun).
Qed.

Lemma GetPod_lookup (namespace name : string) (s : State) :
  GetPod namespace name s
  = match pods (provider s) !! (namespace +:+ "-" +:+ name) with
    | Some pod => (Ok pod, s)
    | None =>
        (Err (NotFound (Errorf ("pod " +:+ dq +:+ namespace +:+ "/" +:+ name +:+ dq
                                +:+ " is not known to the provider"))), s)
    end.
Proof.
  unfold GetPod, buildKeyFromNames. rewrite bind_lift_Ok, bind_get.
  now destruct (pods (provider s) !! _).
Qed.

Lemma notFound_not_invalidKey (e : error) : IsNotFound e → ¬ InvalidKey e.
Proof. intros [cause ->] [H|H]; discriminate. Qed.

(** C4: when [CreatePod] of a pod with non-empty namespace and name
    returns an error, the pod is in the pod map under its key, and
    [GetPod] finds it. *)
Theorem CreatePod_failure_keeps_record
    (h : Host) (pod : v1.Pod) (s s' : State) (e : error) :
  v1.Namespace (v1.Meta pod) ≠ "" →
  v1.Name (v1.Meta pod) ≠ "" →
  CreatePod h pod s = (Err e, s') →
  pods (provider s') !! (v1.Namespace (v1.Meta pod) +:+ "-" +:+ v1.Name (v1.Meta pod))
  = Some pod
  ∧ GetPod (v1.Namespace (v1.Meta pod)) (v1.Name (v1.Meta pod)) s' = (Ok pod, s').
Proof.
  intros Hns Hname Hrun.
  pose proof (CreatePod_pods h pod _ s s' _ (buildKey_nonempty pod Hns Hname) Hrun) as Hp.
  assert (Hin : pods (provider s')
                !! (v1.Namespace (v1.Meta pod) +:+ "-" +:+ v1.Name (v1.Meta pod))
                = Some pod).
  { rewrite Hp. cbn [pods setPods]. apply lookup_insert_eq. }
  split; [exact Hin|]. now rewrite GetPod_lookup, Hin.
Qed.

Lemma CreatePod_failure_keeps_record_witness :
  pods (provider (CreatePod failingRunHost (podNamed "default" "web") exampleState).2)
    !! "default-web" = Some (podNamed "default" "web")
  ∧ GetPod "default" "web" (CreatePod failingRunHost (podNamed "default" "web") exampleState).2
    = (Ok (podNamed "default" "web"),
       (CreatePod failingRunHost (podNamed "default" "web") exampleState).2).
Proof.
  apply (CreatePod_failure_keeps_record failingRunHost (podNamed "default" "web")
           exampleState _
           (Errorf ("failed to run docker-run:" +:+ nl
                    +:+ "out: docker: Error response from daemon." +:+ nl
                    +:+ "err: exit status 125" +:+ nl))).
  - discriminate.
  - discriminate.
  - vm_compute. reflexivity.
Defined.

(** C6: [DeletePod] of a pod whose key is not in the pod map fails with
    a not-found error and changes nothing. *)
Theorem DeletePod_absent (h : Host) (pod : v1.Pod) (key : string) (s : State) :
  buildKey pod = Ok key →
  pods (provider s) !! key = None →
  ∃ e, DeletePod h pod s = (Err e, s) ∧ IsNotFound e.
Proof.
  intros Hkey Hout. exists (NotFound (Errorf "pod not found")).
  split; [| now eexists].
  unfold DeletePod. rewrite Hkey, bind_lift_Ok, bind_get, Hout. reflexivity.
Qed.

Lemma DeletePod_absent_witness :
  ∃ e, DeletePod workingHost (podNamed "default" "ghost") exampleState
       = (Err e, exampleState) ∧ IsNotFound e.
Proof.
  apply (DeletePod_absent workingHost (podNamed "default" "ghost")
           "default-ghost" exampleState).
  - reflexivity.
  - reflexivity.
Defined.

(** C7: [UpdatePod] of a pod with non-empty namespace and name, over a
    pod stored under the same key, succeeds; afterwards [GetPod] returns
    the new pod, every other key holds what it held, and the rest of the
    provider, the package variables and the host are as before. *)
Theorem UpdatePod_replaces (pod old : v1.Pod) (s : State) :
  v1.Namespace (v1.Meta pod) ≠ "" →
  v1.Name (v1.Meta pod) ≠ "" →
  pods (provider s) !! (v1.Namespace (v1.Meta pod) +:+ "-" +:+ v1.Name (v1.Meta pod))
  = Some old →
  ∃ s',
    UpdatePod pod s = (Ok tt, s')
    ∧ GetPod (v1.Namespace (v1.Meta pod)) (v1.Name (v1.Meta pod)) s' = (Ok pod, s')
    ∧ (∀ k, k ≠ v1.Namespace (v1.Meta pod) +:+ "-" +:+ v1.Name (v1.Meta pod) →
            pods (provider s') !! k = pods (provider s) !! k)
    ∧ provider s' = setPods (provider s) (pods (provider s'))
    ∧ vars s' = vars s
    ∧ world s' = world s.
Proof.
  intros Hns Hname _.
  eexists. split.
  { unfold UpdatePod. rewrite (buildKey_nonempty pod Hns Hname).
    rewrite bind_lift_Ok, bind_modifyPods. reflexivity. }
  cbn [provider vars world pods setPods].
  split; [| split; [| repeat split]].
  - rewrite GetPod_lookup. cbn [provider pods setPods].
    now rewrite lookup_insert_eq.
  - intros k Hk. now rewrite lookup_insert_ne.
Qed.

Lemma UpdatePod_replaces_witness :
  ∃ s',
    UpdatePod (podNamed "default" "web") storedState = (Ok tt, s')
    ∧ GetPod "default" "web" s' = (Ok (podNamed "default" "web"), s')
    ∧ (∀ k, k ≠ "default-web" →
            pods (provider s') !! k = pods (provider storedState) !! k)
    ∧ provider s' = setPods (provider storedState) (pods (provider s'))
    ∧ vars s' = vars storedState
    ∧ world s' = world storedState.
Proof.
  apply (UpdatePod_replaces (podNamed "default" "web")
           (v1.mkPod (v1.mkObjectMeta "web" "default" {[ "app" := "old" ]} ∅)
                     (v1.mkPodSpec [v1.mkContainer "nginx" "nginx:1.0"]))
           storedState).
  - discriminate.
  - discriminate.
  - reflexivity.
Defined.

(** C8: for a pod whose namespace or name is empty, [buildKey] fails with
    one of its two errors, and [CreatePod], [UpdatePod] and [DeletePod]
    return that error and leave the state as it was. *)
Theorem empty_names_rejected (pod : v1.Pod) :
  v1.Namespace (v1.Meta pod) = "" ∨ v1.Name (v1.Meta pod) = "" →
  ∃ e,
    InvalidKey e
    ∧ buildKey pod = Err e
    ∧ ∀ (h : Host) (s : State),
        CreatePod h pod s = (Err e, s)
        ∧ UpdatePod pod s = (Err e, s)
        ∧ DeletePod h pod s = (Err e, s).
Proof.
  intros Hempty. destruct (buildKey_empty pod Hempty) as (e & Hinv & Hkey).
  exists e. split; [exact Hinv|]. split; [exact Hkey|].
  intros h s. unfold CreatePod, UpdatePod, DeletePod.
  rewrite Hkey, !bind_lift_Err. auto.
Qed.

Lemma empty_names_rejected_witness :
  ∃ e,
    InvalidKey e
    ∧ buildKey (podNamed "" "x") = Err e
    ∧ ∀ (h : Host) (s : State),
        CreatePod h (podNamed "" "x") s = (Err e, s)
        ∧ UpdatePod (podNamed "" "x") s = (Err e, s)
        ∧ DeletePod h (podNamed "" "x") s = (Err e, s).
Proof.
  apply (empty_names_rejected (podNamed "" "x")).
  left. reflexivity.
Defined.

Example buildKey_empty_name :
  buildKey (podNamed "x" "") = Err (Errorf "pod name not found")
  ∧ buildKey (podNamed "" "x") = Err (Errorf "pod namespace not found").
Proof. split; reflexivity. Qed.

(** C10: with an empty namespace or an empty name, deriving the key from
    the names succeeds with the two names joined by a hyphen; [GetPod]
    returns the pod stored under that key if there is one, and otherwise
    fails with a not-found error; no error of [GetPod] is one of the
    errors of [buildKey]. *)
Theorem GetPod_empty_component (namespace name : string) (s : State) :
  namespace = "" ∨ name = "" →
  buildKeyFromNames namespace name = Ok (namespace +:+ "-" +:+ name)
  ∧ (∀ pod, pods (provider s) !! (namespace +:+ "-" +:+ name) = Some pod →
            GetPod namespace name s = (Ok pod, s))
  ∧ (pods (provider s) !! (namespace +:+ "-" +:+ name) = None →
     ∃ e, GetPod namespace name s = (Err e, s) ∧ IsNotFound e)
  ∧ (∀ e s', GetPod namespace name s = (Err e, s') → IsNotFound e ∧ ¬ InvalidKey e).
Proof.
  intros _. split; [reflexivity|].
  rewrite GetPod_lookup.
  destruct (pods (provider s) !! _) as [stored|].
  - split; [now intros pod [= ->]|]. split; [discriminate|]. discriminate.
  - split; [discriminate|]. split.
    + intros _. eexists. split; [reflexivity | now eexists].
    + intros e s' [= <- <-]. split; [now eexists|].
      apply notFound_not_invalidKey. now eexists.
Qed.

Lemma GetPod_empty_component_witness :
  buildKeyFromNames "" "web" = Ok "-web"
  ∧ (∀ pod, pods (provider exampleState) !! "-web" = Some pod →
            GetPod "" "web" exampleState = (Ok pod, exampleState))
  ∧ (pods (provider exampleState) !! "-web" = None →
     ∃ e, GetPod "" "web" exampleState = (Err e, exampleState) ∧ IsNotFound e)
  ∧ (∀ e s', GetPod "" "web" exampleState = (Err e, s') → IsNotFound e ∧ ¬ InvalidKey e).
Proof.
  apply (GetPod_empty_component "" "web" exampleState).
  left. reflexivity.
Defined.

(** Create, get, delete, get on a working host. *)
Example create_get_delete :
  let pod := podNamed "default" "web" in
  let s1 := (CreatePod workingHost pod exampleState).2 in
  let s2 := (DeletePod workingHost pod s1).2 in
  (CreatePod workingHost pod exampleState).1 = Ok tt
  ∧ (GetPod "default" "web" s1).1 = Ok pod
  ∧ (DeletePod workingHost pod s1).1 = Ok tt
  ∧ pods (provider s2) = ∅
  ∧ ∃ e, (GetPod "default" "web" s2).1 = Err e ∧ IsNotFound e.
Proof.
  cbv zeta. repeat split; try (vm_compute; reflexivity).
  eexists. split; [vm_compute; reflexivity | now eexists].
Qed.

(** A failure before any file is written: the pod is stored, nothing is
    written and no command is run. *)
Example CreatePod_mkdir_failure :
  let r := CreatePod failingMkdirHost (podNamed "default" "web") exampleState in
  r.1 = Err (HostError "mkdir /tmp/nodemain: permission denied")
  ∧ pods (provider r.2) !! "default-web" = Some (podNamed "default" "web")
  ∧ files (world r.2) = ∅
  ∧ commands (world r.2) = [].
Proof. cbv zeta. repeat split; vm_compute; reflexivity. Qed.

(** When [CreatePod] succeeds, the three files hold the three generated
    texts for the role of the pod, the script being executable. *)
Lemma CreatePod_writes_files (h : Host) (pod : v1.Pod) (s s' : State) :
  CreatePod h pod s = (Ok tt, s') →
  vars s' = selectRole pod (vars s)
  ∧ files (world s') !! tincStartupConfigHost (vars s')
    = Some (startupData (provider s') (vars s') DefaultTincRemotePeers, mode_0644)
  ∧ files (world s') !! tincMainConfigHost (vars s')
    = Some (mainData (provider s') (vars s'), mode_0644)
  ∧ files (world s') !! tincUpScriptHost (vars s')
    = Some (scriptData (vars s'), mode_0755).
Proof.
  intros Hrun. unfold CreatePod in Hrun.
  destruct (buildKey pod) as [key|e]; [| discriminate].
  rewrite bind_lift_Ok, bind_modifyPods, bind_get in Hrun.
  unfold createStartupConfig, MkdirAll, WriteFile, Command in Hrun.
  run_monad. cbn [provider vars world files dirs commands] in Hrun.
  destruct (os_MkdirAll h _); [discriminate|].
  destruct (ioutil_WriteFile h _ _); [discriminate|].
  destruct (ioutil_WriteFile h _ _); [discriminate|].
  destruct (ioutil_WriteFile h _ _); [discriminate|].
  cbn [provider vars world files dirs commands] in Hrun.
  destruct (exec_Command h (dockerRunArgs _)) as [out [err|]]; [discriminate|].
  injection Hrun as <-. cbn [provider vars world files dirs commands].
  split; [reflexivity|].
  unfold selectRole. destruct (String.eqb _ "peer");
    cbn [tincStartupConfigHost tincMainConfigHost tincUpScriptHost];
    (split; [| split]);
    repeat first [ apply lookup_insert_eq
                 | rewrite lookup_insert_ne by (vm_compute; discriminate) ];
    reflexivity.
Qed.

(** C5 (as stated, refuted): the provider has no peer list to be given.
    With a configuration that names the peers peerA and peerB, the
    startup configuration that [CreatePod] writes is neither the scalar
    lines and the lines of the node followed by the lines of peerA and
    peerB, nor the scalar lines and the lines of the node alone. *)
Lemma startup_file_ignores_peer_list :
  files (world (CreatePod workingHost (podNamed "default" "web")
                  (mkState twoPeersProvider initVars emptyWorld)).2)
    !! "/tmp/nodemain/vk-startup-config.conf"
  ≠ Some (unlines (map addLine
            (scalarSettings twoPeersProvider initVars
             ++ nodeBinding twoPeersProvider "nodemain" "172.17.0.2"
             ++ nodeBinding twoPeersProvider "peerA" "172.17.0.3"
             ++ nodeBinding twoPeersProvider "peerB" "172.17.0.3")), mode_0644)
  ∧ files (world (CreatePod workingHost (podNamed "default" "web")
                    (mkState twoPeersProvider initVars emptyWorld)).2)
      !! "/tmp/nodemain/vk-startup-config.conf"
    ≠ Some (unlines (map addLine
              (scalarSettings twoPeersProvider initVars
               ++ nodeBinding twoPeersProvider "nodemain" "172.17.0.2")), mode_0644).
Proof. split; vm_compute; discriminate. Qed.

(** C5 (amended): the startup configuration that a successful [CreatePod]
    leaves in its file is one [add] line per scalar setting, then the
    three lines of the node itself (address, subnet, port under the
    configured name), then the three lines of the one built-in peer,
    nodepeer, and nothing else; it is written with mode 0644. *)
Theorem startup_file_layout (h : Host) (pod : v1.Pod) (s s' : State) :
  CreatePod h pod s = (Ok tt, s') →
  files (world s') !! tincStartupConfigHost (vars s')
  = Some (unlines
            ["add AutoConnect = " +:+ AutoConnect (config (provider s'));
             "add ConnectTo = " +:+ tincPeerName (vars s');
             "add Device = " +:+ Device (config (provider s'));
             "add DeviceType = " +:+ DeviceType (config (provider s'));
             "add Mode = " +:+ Mode (config (provider s'));
             "add Name = " +:+ tincMainName (vars s');
             "add " +:+ Name (config (provider s')) +:+ ".Address = " +:+ myAddress (vars s');
             "add " +:+ Name (config (provider s')) +:+ ".Subnet = " +:+ tincSubnet (provider s');
             "add " +:+ Name (config (provider s')) +:+ ".Port = " +:+ fmt_d (tincPort (provider s'));
             "add nodepeer.Address = " +:+ peerAddress (vars s');
             "add nodepeer.Subnet = " +:+ tincSubnet (provider s');
             "add nodepeer.Port = " +:+ fmt_d (tincPort (provider s'))],
          mode_0644).
Proof.
  intros Hrun.
  destruct (CreatePod_writes_files h pod s s' Hrun) as (_ & Hfile & _).
  rewrite Hfile. do 2 f_equal.
  rewrite startupData_lines.
  change (Fields DefaultTincRemotePeers) with ["nodepeer"].
  unfold scalarSettings, nodeBinding, addLine.
  cbn [flat_map app map fst snd unlines].
  rewrite ?append_assoc. reflexivity.
Qed.

Lemma startup_file_layout_witness :
  files (world (CreatePod workingHost (podNamed "default" "web")
                  (mkState twoPeersProvider initVars emptyWorld)).2)
    !! "/tmp/nodemain/vk-startup-config.conf"
  = Some (unlines
            ["add AutoConnect = yes";
             "add ConnectTo = nodepeer";
             "add Device = /dev/net/tun";
             "add DeviceType = tap";
             "add Mode = switch";
             "add Name = nodemain";
             "add nodemain.Address = 172.17.0.2";
             "add nodemain.Subnet = 10.1.1.0/24";
             "add nodemain.Port = 655";
             "add nodepeer.Address = 172.17.0.3";
             "add nodepeer.Subnet = 10.1.1.0/24";
             "add nodepeer.Port = 655"],
          mode_0644).
Proof.
  apply (startup_file_layout workingHost (podNamed "default" "web")
           (mkState twoPeersProvider initVars emptyWorld)
           (CreatePod workingHost (podNamed "default" "web")
              (mkState twoPeersProvider initVars emptyWorld)).2).
  vm_compute. reflexivity.
Defined.

(** * Further properties *)

(** ** Configuration loading and capacity *)

Lemma loadConfig_config (parse : string → bool) (mainName : string)
    (configMap : gmap string TincConfig) (nodeName : string) :
  (loadConfig parse mainName (Settings configMap) nodeName).1
  = match configMap !! nodeName with
    | Some entry => applyDefaults mainName entry
    | None => zeroConfig
    end.
Proof.
  unfold loadConfig.
  destruct (parse (CPU _)), (parse (Memory _)), (parse (Pods _)); reflexivity.
Qed.

Lemma loadConfig_no_error (parse : string → bool) (mainName : string)
    (configMap : gmap string TincConfig) (nodeName : string) :
  (loadConfig parse mainName (Settings configMap) nodeName).2 = None
  ↔ parse (CPU (loadConfig parse mainName (Settings configMap) nodeName).1) = true
    ∧ parse (Memory (loadConfig parse mainName (Settings configMap) nodeName).1) = true
    ∧ parse (Pods (loadConfig parse mainName (Settings configMap) nodeName).1) = true.
Proof.
  rewrite loadConfig_config. unfold loadConfig.
  set (c := match configMap !! nodeName with
            | Some entry => applyDefaults mainName entry
            | None => zeroConfig
            end).
  destruct (parse (CPU c)), (parse (Memory c)), (parse (Pods c)); cbn;
    split; try discriminate; try tauto; intros (? & ? & ?); discriminate.
Qed.

(** X1: on settings that were read, [loadConfig] returns no error exactly
    when the CPU, memory and pods values of the configuration it returns
    parse as quantities. *)
Theorem loadConfig_ok_iff (parse : string → bool) (mainName : string)
    (configMap : gmap string TincConfig) (nodeName : string) :
  (loadConfig parse mainName (Settings configMap) nodeName).2 = None
  ↔ parse (CPU (loadConfig parse mainName (Settings configMap) nodeName).1) = true
    ∧ parse (Memory (loadConfig parse mainName (Settings configMap) nodeName).1) = true
    ∧ parse (Pods (loadConfig parse mainName (Settings configMap) nodeName).1) = true.
Proof. apply loadConfig_no_error. Qed.

Lemma orDefault_nonempty (f d : string) : d ≠ "" → orDefault f d ≠ "".
Proof.
  intros Hd. unfold orDefault.
  destruct (String.eqb_spec f ""); assumption.
Qed.

Lemma orDefault_keeps (f d : string) : f ≠ "" → orDefault f d = f.
Proof. intros Hf. unfold orDefault. now rewrite (eqb_empty_false _ Hf). Qed.

(** X2: when the node has an entry and the main name is not empty, none
    of the nine settings of the returned configuration is blank, and each
    setting that the entry gives is returned as the entry gives it; this
    holds also when [loadConfig] returns an error. *)
Theorem loadConfig_entry_fields (parse : string → bool) (mainName : string)
    (configMap : gmap string TincConfig) (nodeName : string) (entry : TincConfig) :
  mainName ≠ "" →
  configMap !! nodeName = Some entry →
  Forall (λ field : TincConfig → string,
            field (loadConfig parse mainName (Settings configMap) nodeName).1 ≠ ""
            ∧ (field entry ≠ "" →
               field (loadConfig parse mainName (Settings configMap) nodeName).1
               = field entry))
         configFields.
Proof.
  intros Hmain Hin. rewrite loadConfig_config, Hin.
  unfold configFields, applyDefaults.
  repeat constructor; cbn [AutoConnect ConnectTo Device DeviceType Mode Name CPU Memory Pods];
    solve [ apply orDefault_nonempty; first [assumption | discriminate]
          | apply orDefault_keeps; assumption ].
Qed.

Lemma loadConfig_entry_fields_witness :
  Forall (λ field : TincConfig → string,
            field (loadConfig quantitySyntax "nodemain"
                     (Settings {[ "vkubelet-tinc-0" :=
                                    mkTincConfig "" "" "" "dummy" "router" "" "" "4" "" "" ]})
                     "vkubelet-tinc-0").1 ≠ ""
            ∧ (field (mkTincConfig "" "" "" "dummy" "router" "" "" "4" "" "") ≠ "" →
               field (loadConfig quantitySyntax "nodemain"
                        (Settings {[ "vkubelet-tinc-0" :=
                                       mkTincConfig "" "" "" "dummy" "router" "" "" "4" "" "" ]})
                        "vkubelet-tinc-0").1
               = field (mkTincConfig "" "" "" "dummy" "router" "" "" "4" "" "")))
         configFields.
Proof.
  apply (loadConfig_entry_fields quantitySyntax "nodemain"
           {[ "vkubelet-tinc-0" := mkTincConfig "" "" "" "dummy" "router" "" "" "4" "" "" ]}
           "vkubelet-tinc-0").
  - discriminate.
  - reflexivity.
Defined.

(** X3: when the entry of the node gives a CPU value that does not
    parse, [loadConfig] fails with the message that quotes the value,
    whatever the other settings are, and the provider is not made. *)
Theorem loadConfig_invalid_cpu (parse : string → bool) (v : Vars)
    (configMap : gmap string TincConfig) (nodeName address subnet : string) (port : Z)
    (entry : TincConfig) :
  configMap !! nodeName = Some entry →
  CPU entry ≠ "" →
  parse (CPU entry) = false →
  (loadConfig parse (tincMainName v) (Settings configMap) nodeName).2
  = Some (Errorf ("Invalid CPU value " +:+ CPU entry))
  ∧ NewTincProvider parse v (Settings configMap) nodeName address subnet port
    = Err (Errorf ("Invalid CPU value " +:+ CPU entry)).
Proof.
  intros Hin Hcpu Hbad.
  assert (Hrun : loadConfig parse (tincMainName v) (Settings configMap) nodeName
                 = (applyDefaults (tincMainName v) entry,
                    Some (Errorf ("Invalid CPU value " +:+ CPU entry)))).
  { unfold loadConfig. rewrite Hin. cbn [applyDefaults CPU].
    now rewrite (orDefault_keeps _ _ Hcpu), Hbad. }
  unfold NewTincProvider. now rewrite Hrun.
Qed.

Lemma loadConfig_invalid_cpu_witness :
  (loadConfig quantitySyntax (tincMainName initVars)
     (Settings {[ "vkubelet-tinc-0" :=
                    mkTincConfig "" "" "" "" "" "" "" "not-a-quantity" "" "" ]})
     "vkubelet-tinc-0").2
  = Some (Errorf ("Invalid CPU value " +:+ "not-a-quantity"))
  ∧ NewTincProvider quantitySyntax initVars
      (Settings {[ "vkubelet-tinc-0" :=
                     mkTincConfig "" "" "" "" "" "" "" "not-a-quantity" "" "" ]})
      "vkubelet-tinc-0" "192.168.99.100" DefaultTincSubnet DefaultTincPort
    = Err (Errorf ("Invalid CPU value " +:+ "not-a-quantity")).
Proof.
  apply (loadConfig_invalid_cpu quantitySyntax initVars
           {[ "vkubelet-tinc-0" :=
                mkTincConfig "" "" "" "" "" "" "" "not-a-quantity" "" "" ]}
           "vkubelet-tinc-0" "192.168.99.100" DefaultTincSubnet DefaultTincPort
           (mkTincConfig "" "" "" "" "" "" "" "not-a-quantity" "" "")).
  - reflexivity.
  - discriminate.
  - reflexivity.
Defined.

Lemma NewTincProvider_fields (parse : string → bool) (v : Vars)
    (src : ConfigSource) (name address subnet : string) (port : Z) (p : TincProvider) :
  NewTincProvider parse v src name address subnet port = Ok p →
  pods p = ∅
  ∧ (nodeName p, tincAddress p, tincSubnet p, tincPort p) = (name, address, subnet, port)
  ∧ Capacity parse p
    = Some {[ "cpu" := CPU (config p); "memory" := Memory (config p);
              "pods" := Pods (config p) ]}.
Proof.
  unfold NewTincProvider. intros Hnew.
  destruct src as [e|e|configMap]; try discriminate.
  pose proof (loadConfig_no_error parse (tincMainName v) configMap name) as Hok.
  destruct (loadConfig parse (tincMainName v) (Settings configMap) name) as [c [e|]];
    [discriminate|].
  injection Hnew as <-. cbn [fst snd] in Hok.
  destruct Hok as [Hok _]. destruct (Hok eq_refl) as (Hcpu & Hmem & Hpods).
  split; [reflexivity|]. split; [reflexivity|].
  unfold Capacity, MustParse. cbn [config]. now rewrite Hcpu, Hmem, Hpods.
Qed.

(** X4: a provider that [NewTincProvider] returns has an empty pod map,
    the node name, address, subnet and port it was given, and quantities
    on which [Capacity] does not panic: it reports the three configured
    values. *)
Theorem NewTincProvider_capacity (parse : string → bool) (v : Vars)
    (src : ConfigSource) (name address subnet : string) (port : Z) (p : TincProvider) :
  NewTincProvider parse v src name address subnet port = Ok p →
  pods p = ∅
  ∧ (nodeName p, tincAddress p, tincSubnet p, tincPort p) = (name, address, subnet, port)
  ∧ Capacity parse p
    = Some {[ "cpu" := CPU (config p); "memory" := Memory (config p);
              "pods" := Pods (config p) ]}.
Proof. apply NewTincProvider_fields. Qed.

Lemma NewTincProvider_capacity_witness :
  pods exampleProvider = ∅
  ∧ (nodeName exampleProvider, tincAddress exampleProvider,
     tincSubnet exampleProvider, tincPort exampleProvider)
    = ("vkubelet-tinc-0", "192.168.99.100", DefaultTincSubnet, DefaultTincPort)
  ∧ Capacity quantitySyntax exampleProvider
    = Some {[ "cpu" := CPU (config exampleProvider);
              "memory" := Memory (config exampleProvider);
              "pods" := Pods (config exampleProvider) ]}.
Proof.
  apply (NewTincProvider_capacity quantitySyntax initVars
           (Settings {[ "vkubelet-tinc-0" := zeroConfig ]})
           "vkubelet-tinc-0" "192.168.99.100" DefaultTincSubnet DefaultTincPort
           exampleProvider).
  vm_compute. reflexivity.
Defined.

(** X5: a provider that [initTinc] returns is named after the node,
    reports the internal address of the node as its only address and the
    default tinc port as its kubelet port, uses the default subnet and
    holds no pod. *)
Theorem initTinc_provider (parse : string → bool) (v : Vars)
    (readConfig : string → ConfigSource) (cfg : InitConfig) (p : TincProvider) :
  initTinc parse v readConfig cfg = Ok p →
  nodeName p = NodeName cfg
  ∧ NodeAddresses p = [("InternalIP", InternalIP cfg)]
  ∧ NodeDaemonEndpoints p = 655%Z
  ∧ tincSubnet p = "10.1.1.0/24"
  ∧ pods p = ∅.
Proof.
  unfold initTinc. intros Hp.
  destruct (NewTincProvider_fields _ _ _ _ _ _ _ _ Hp) as (Hpods & Hfields & _).
  injection Hfields as Hn Ha Hs Hport.
  unfold NodeAddresses, NodeDaemonEndpoints. now rewrite Hn, Ha, Hs, Hport.
Qed.

Lemma initTinc_provider_witness :
  nodeName exampleProvider = NodeName (mkInitConfig "vk-tinc.json" "vkubelet-tinc-0" "192.168.99.100")
  ∧ NodeAddresses exampleProvider
    = [("InternalIP", InternalIP (mkInitConfig "vk-tinc.json" "vkubelet-tinc-0" "192.168.99.100"))]
  ∧ NodeDaemonEndpoints exampleProvider = 655%Z
  ∧ tincSubnet exampleProvider = "10.1.1.0/24"
  ∧ pods exampleProvider = ∅.
Proof.
  apply (initTinc_provider quantitySyntax initVars
           (λ _, Settings {[ "vkubelet-tinc-0" := zeroConfig ]})
           (mkInitConfig "vk-tinc.json" "vkubelet-tinc-0" "192.168.99.100")
           exampleProvider).
  vm_compute. reflexivity.
Defined.

(** ** Keys and the pod map *)

Lemma buildKey_nonempty_inv (pod : v1.Pod) (key : string) :
  buildKey pod = Ok key →
  key = v1.Namespace (v1.Meta pod) +:+ "-" +:+ v1.Name (v1.Meta pod).
Proof.
  unfold buildKey, buildKeyFromNames.
  destruct (String.eqb _ ""); [discriminate|].
  destruct (String.eqb _ ""); [discriminate|].
  now intros [= <-].
Qed.

(** X6: [buildKey] returns a key exactly for the pods whose namespace and
    name are both non-empty, and the key is then the two joined by a
    hyphen. *)
Theorem buildKey_ok_iff (pod : v1.Pod) (key : string) :
  buildKey pod = Ok key
  ↔ v1.Namespace (v1.Meta pod) ≠ "" ∧ v1.Name (v1.Meta pod) ≠ ""
    ∧ key = v1.Namespace (v1.Meta pod) +:+ "-" +:+ v1.Name (v1.Meta pod).
Proof.
  unfold buildKey, buildKeyFromNames.
  destruct (String.eqb_spec (v1.Namespace (v1.Meta pod)) "") as [Hns|Hns];
    [split; [discriminate | tauto]|].
  destruct (String.eqb_spec (v1.Name (v1.Meta pod)) "") as [Hn|Hn];
    [split; [discriminate | tauto]|].
  split.
  - intros [= <-]. auto.
  - intros (_ & _ & ->). reflexivity.
Qed.

Lemma UpdatePod_run (pod : v1.Pod) (s : State) :
  UpdatePod pod s
  = match buildKey pod with
    | Ok key =>
        (Ok tt, mkState (setPods (provider s) (<[key := pod]> (pods (provider s))))
                        (vars s) (world s))
    | Err e => (Err e, s)
    end.
Proof. unfold UpdatePod. now destruct (buildKey pod). Qed.

Lemma CreatePod_invalid (h : Host) (pod : v1.Pod) (e : error) (s : State) :
  buildKey pod = Err e → CreatePod h pod s = (Err e, s).
Proof. intros Hkey. unfold CreatePod. now rewrite Hkey. Qed.

Lemma DeletePod_run (h : Host) (pod : v1.Pod) (s : State) :
  DeletePod h pod s
  = match buildKey pod with
    | Err e => (Err e, s)
    | Ok key =>
        match pods (provider s) !! key with
        | None => (Err (NotFound (Errorf "pod not found")), s)
        | Some _ =>
            let argv := [dockerClient; "rm"; "--force"; Name (config (provider s))] in
            let s' := mkState (setPods (provider s) (delete key (pods (provider s))))
                              (vars s)
                              (mkWorld (dirs (world s)) (files (world s))
                                       (argv :: commands (world s))) in
            match exec_Command h argv with
            | (out, Some err) =>
                (Err (Errorf ("failed to run docker-rm:" +:+ nl +:+ "out: " +:+ out +:+ nl
                              +:+ "err: " +:+ Error err +:+ nl)), s')
            | (_, None) => (Ok tt, s')
            end
        end
    end.
Proof.
  unfold DeletePod. destruct (buildKey pod) as [key|e]; [| reflexivity].
  rewrite bind_lift_Ok, bind_get.
  destruct (pods (provider s) !! key); [| reflexivity].
  rewrite bind_modifyPods. unfold Command. run_monad.
  cbn [provider vars world pods setPods config].
  now destruct (exec_Command h _) as [out [err|]].
Qed.

(** X7: [CreatePod] and [UpdatePod] of a pod leave the same provider,
    and so the same pod map, whatever the host does and whether or not
    the pod has a key. *)
Theorem CreatePod_stores_as_UpdatePod (h : Host) (pod : v1.Pod) (s : State) :
  provider (CreatePod h pod s).2 = provider (UpdatePod pod s).2.
Proof.
  rewrite UpdatePod_run.
  destruct (buildKey pod) as [key|e] eqn:Hkey.
  - destruct (CreatePod h pod s) as [r s'] eqn:Hrun.
    exact (CreatePod_pods h pod key s s' r Hkey Hrun).
  - now rewrite (CreatePod_invalid h pod e s Hkey).
Qed.

(** X8: [DeletePod] of a pod whose key is in the pod map removes that
    entry and runs exactly one command, [docker rm --force] on the
    configured name; it returns an error exactly when that command fails,
    and the entry is removed in either case: [GetPod] no longer finds it.
    Files, directories and package variables are left alone. *)
Theorem DeletePod_present (h : Host) (pod old : v1.Pod) (key : string) (s : State) :
  buildKey pod = Ok key →
  pods (provider s) !! key = Some old →
  pods (provider (DeletePod h pod s).2) = delete key (pods (provider s))
  ∧ commands (world (DeletePod h pod s).2)
    = [dockerClient; "rm"; "--force"; Name (config (provider s))] :: commands (world s)
  ∧ files (world (DeletePod h pod s).2) = files (world s)
  ∧ dirs (world (DeletePod h pod s).2) = dirs (world s)
  ∧ vars (DeletePod h pod s).2 = vars s
  ∧ ((DeletePod h pod s).1 = Ok tt
     ↔ (exec_Command h [dockerClient; "rm"; "--force"; Name (config (provider s))]).2 = None)
  ∧ ∃ e, (GetPod (v1.Namespace (v1.Meta pod)) (v1.Name (v1.Meta pod))
                 (DeletePod h pod s).2).1 = Err e
         ∧ IsNotFound e.
Proof.
  intros Hkey Hin. rewrite DeletePod_run, Hkey, Hin. cbv zeta.
  apply buildKey_nonempty_inv in Hkey as Hnames.
  destruct (exec_Command h _) as [out [err|]]; cbn [fst snd provider vars world pods
    setPods commands files dirs];
    (repeat split; try discriminate; try reflexivity);
    rewrite GetPod_lookup; cbn [provider pods setPods];
    rewrite <- Hnames, lookup_delete_eq; (eexists; split; [reflexivity | now eexists]).
Qed.

Lemma DeletePod_present_witness :
  pods (provider (DeletePod (withRmAnswer ("Error: no such container", Some (HostError "exit status 1")) workingHost)
                            (podNamed "default" "web") storedState).2)
  = delete "default-web" (pods (provider storedState))
  ∧ commands (world (DeletePod (withRmAnswer ("Error: no such container", Some (HostError "exit status 1")) workingHost)
                               (podNamed "default" "web") storedState).2)
    = [dockerClient; "rm"; "--force"; Name (config (provider storedState))]
      :: commands (world storedState)
  ∧ files (world (DeletePod (withRmAnswer ("Error: no such container", Some (HostError "exit status 1")) workingHost)
                            (podNamed "default" "web") storedState).2)
    = files (world storedState)
  ∧ dirs (world (DeletePod (withRmAnswer ("Error: no such container", Some (HostError "exit status 1")) workingHost)
                           (podNamed "default" "web") storedState).2)
    = dirs (world storedState)
  ∧ vars (DeletePod (withRmAnswer ("Error: no such container", Some (HostError "exit status 1")) workingHost)
                    (podNamed "default" "web") storedState).2
    = vars storedState
  ∧ ((DeletePod (withRmAnswer ("Error: no such container", Some (HostError "exit status 1")) workingHost)
                (podNamed "default" "web") storedState).1 = Ok tt
     ↔ (exec_Command (withRmAnswer ("Error: no such container", Some (HostError "exit status 1")) workingHost)
          [dockerClient; "rm"; "--force"; Name (config (provider storedState))]).2 = None)
  ∧ ∃ e, (GetPod (v1.Namespace (v1.Meta (podNamed "default" "web")))
                 (v1.Name (v1.Meta (podNamed "default" "web")))
                 (DeletePod (withRmAnswer ("Error: no such container", Some (HostError "exit status 1")) workingHost)
                            (podNamed "default" "web") storedState).2).1 = Err e
         ∧ IsNotFound e.
Proof.
  apply (DeletePod_present
           (withRmAnswer ("Error: no such container", Some (HostError "exit status 1")) workingHost)
           (podNamed "default" "web")
           (v1.mkPod (v1.mkObjectMeta "web" "default" {[ "app" := "old" ]} ∅)
                     (v1.mkPodSpec [v1.mkContainer "nginx" "nginx:1.0"]))
           "default-web" storedState).
  - reflexivity.
  - reflexivity.
Defined.

(** X9: a second [DeletePod] of the same pod always returns an error and
    changes nothing, whatever the hosts answer and whatever the first
    call returned. *)
Theorem DeletePod_twice (h1 h2 : Host) (pod : v1.Pod) (s : State) :
  ∃ e, DeletePod h2 pod (DeletePod h1 pod s).2 = (Err e, (DeletePod h1 pod s).2).
Proof.
  rewrite (DeletePod_run h1), (DeletePod_run h2).
  destruct (buildKey pod) as [key|e]; [| eauto].
  destruct (pods (provider s) !! key) as [old|] eqn:Hin; cbv zeta.
  - destruct (exec_Command h1 _) as [out [err|]]; cbn [snd provider pods setPods];
      rewrite lookup_delete_eq; eauto.
  - cbn [snd]. rewrite Hin. eauto.
Qed.

(** X10: [CreatePod] of a pod whose key is free, followed by [DeletePod]
    of the same pod, leaves the pod map as it was before the two calls,
    whatever the two calls return. *)
Theorem CreatePod_DeletePod_store (h1 h2 : Host) (pod : v1.Pod) (key : string) (s : State) :
  buildKey pod = Ok key →
  pods (provider s) !! key = None →
  pods (provider (DeletePod h2 pod (CreatePod h1 pod s).2).2) = pods (provider s).
Proof.
  intros Hkey Hfree.
  destruct (CreatePod h1 pod s) as [r s1] eqn:Hrun.
  pose proof (CreatePod_pods h1 pod key s s1 r Hkey Hrun) as Hp.
  cbn [snd]. rewrite DeletePod_run, Hkey, Hp. cbn [pods setPods].
  rewrite lookup_insert_eq. cbv zeta.
  destruct (exec_Command h2 _) as [out [err|]]; cbn [snd provider pods setPods];
    now rewrite delete_insert_id.
Qed.

Lemma CreatePod_DeletePod_store_witness :
  pods (provider (DeletePod workingHost (podNamed "default" "web")
                    (CreatePod failingRunHost (podNamed "default" "web") exampleState).2).2)
  = pods (provider exampleState).
Proof.
  apply (CreatePod_DeletePod_store failingRunHost workingHost (podNamed "default" "web")
           "default-web" exampleState).
  - reflexivity.
  - reflexivity.
Defined.

(** X11: two pods with one key share one slot of the pod map: after the
    second is stored, [GetPod] with the names of the first returns the
    second. *)
Theorem colliding_pods_share_slot (pod1 pod2 : v1.Pod) (key : string) (s : State) :
  buildKey pod1 = Ok key →
  buildKey pod2 = Ok key →
  (GetPod (v1.Namespace (v1.Meta pod1)) (v1.Name (v1.Meta pod1))
          (UpdatePod pod2 (UpdatePod pod1 s).2).2).1
  = Ok pod2.
Proof.
  intros Hk1 Hk2. rewrite !UpdatePod_run, Hk1, Hk2. cbn [snd].
  rewrite GetPod_lookup. cbn [provider pods setPods].
  rewrite <- (buildKey_nonempty_inv pod1 key Hk1).
  now rewrite lookup_insert_eq.
Qed.

Lemma colliding_pods_share_slot_witness :
  (GetPod (v1.Namespace (v1.Meta (podNamed "a-b" "c"))) (v1.Name (v1.Meta (podNamed "a-b" "c")))
          (UpdatePod (podNamed "a" "b-c") (UpdatePod (podNamed "a-b" "c") exampleState).2).2).1
  = Ok (podNamed "a" "b-c").
Proof.
  apply (colliding_pods_share_slot (podNamed "a-b" "c") (podNamed "a" "b-c") "a-b-c"
           exampleState).
  - reflexivity.
  - reflexivity.
Defined.

(** ** Reading the pod map *)

Lemma GetPodStatus_run (now : Z) (namespace name : string) (s : State) :
  GetPodStatus now namespace name s
  = match GetPod namespace name s with
    | (Ok pod, s') =>
        (Ok (status.mkPodStatus "Running" "1.2.3.4" "5.6.7.8" (Some now)
               [status.mkPodCondition "Initialized" "True";
                status.mkPodCondition "Ready" "True";
                status.mkPodCondition "PodScheduled" "True"]
               (map (λ container,
                       status.mkContainerStatus (v1.ContainerName container)
                         (v1.Image container) true 0 (Some now))
                    (v1.Containers (v1.Spec pod)))), s')
    | (Err e, s') => (Err e, s')
    end.
Proof.
  unfold GetPodStatus. run_monad.
  destruct (GetPod namespace name s) as [[pod|e] s']; [| reflexivity].
  do 2 f_equal.
  set (st := status.mkPodStatus _ _ _ _ _ []).
  assert (Hloop : ∀ containers st0,
    fold_left (appendContainerStatus now) containers st0
    = status.mkPodStatus (status.Phase st0) (status.HostIP st0) (status.PodIP st0)
        (status.StartTime st0) (status.Conditions st0)
        (status.ContainerStatuses st0
         ++ map (λ container,
                   status.mkContainerStatus (v1.ContainerName container)
                     (v1.Image container) true 0 (Some now)) containers)).
  { induction containers as [|c cs IH]; intros st0.
    - cbn [fold_left map]. rewrite app_nil_r. now destruct st0.
    - cbn [fold_left map]. rewrite IH. unfold appendContainerStatus.
      cbn [status.Phase status.HostIP status.PodIP status.StartTime status.Conditions
           status.ContainerStatuses].
      now rewrite <- app_assoc. }
  rewrite Hloop. reflexivity.
Qed.

(** X12: for a pod stored under the key of the names asked for,
    [GetPodStatus] reports phase Running and one container status per
    container of the pod, in the order of the pod, each with the name and
    image of its container, ready, never restarted and running since the
    time of the call; the state is not changed. *)
Theorem GetPodStatus_found (now : Z) (namespace name : string) (pod : v1.Pod) (s : State) :
  pods (provider s) !! (namespace +:+ "-" +:+ name) = Some pod →
  ∃ st,
    GetPodStatus now namespace name s = (Ok st, s)
    ∧ status.Phase st = "Running"
    ∧ length (status.ContainerStatuses st) = length (v1.Containers (v1.Spec pod))
    ∧ ∀ i container,
        v1.Containers (v1.Spec pod) !! i = Some container →
        status.ContainerStatuses st !! i
        = Some (status.mkContainerStatus (v1.ContainerName container) (v1.Image container)
                  true 0 (Some now)).
Proof.
  intros Hin. rewrite GetPodStatus_run, GetPod_lookup, Hin.
  eexists. split; [reflexivity|].
  cbn [status.Phase status.ContainerStatuses].
  split; [reflexivity|]. split; [now rewrite length_map|].
  intros i container Hi. now rewrite list_lookup_fmap, Hi.
Qed.

Lemma GetPodStatus_found_witness :
  ∃ st,
    GetPodStatus 1541116800 "default" "web" storedState = (Ok st, storedState)
    ∧ status.Phase st = "Running"
    ∧ length (status.ContainerStatuses st)
      = length (v1.Containers (v1.Spec
                  (v1.mkPod (v1.mkObjectMeta "web" "default" {[ "app" := "old" ]} ∅)
                            (v1.mkPodSpec [v1.mkContainer "nginx" "nginx:1.0"]))))
    ∧ ∀ i container,
        v1.Containers (v1.Spec
          (v1.mkPod (v1.mkObjectMeta "web" "default" {[ "app" := "old" ]} ∅)
                    (v1.mkPodSpec [v1.mkContainer "nginx" "nginx:1.0"]))) !! i
        = Some container →
        status.ContainerStatuses st !! i
        = Some (status.mkContainerStatus (v1.ContainerName container) (v1.Image container)
                  true 0 (Some 1541116800%Z)).
Proof.
  apply (GetPodStatus_found 1541116800 "default" "web"
           (v1.mkPod (v1.mkObjectMeta "web" "default" {[ "app" := "old" ]} ∅)
                     (v1.mkPodSpec [v1.mkContainer "nginx" "nginx:1.0"]))
           storedState).
  reflexivity.
Defined.

(** X13: [GetPodStatus] fails exactly when [GetPod] with the same names
    fails, and with the same error. *)
Theorem GetPodStatus_fails_as_GetPod (now : Z) (namespace name : string) (s : State) (e : error) :
  (GetPodStatus now namespace name s).1 = Err e ↔ (GetPod namespace name s).1 = Err e.
Proof.
  rewrite GetPodStatus_run.
  destruct (GetPod namespace name s) as [[pod|e'] s']; cbn [fst].
  - split; discriminate.
  - split; intros [= ->]; reflexivity.
Qed.

Lemma GetPods_run (s : State) :
  GetPods s = (Ok ((map_to_list (pods (provider s))).*2), s).
Proof.
  unfold GetPods. run_monad. do 2 f_equal.
  assert (Hloop : ∀ (l : list (string * v1.Pod)) acc,
            fold_left (λ pods kv, pods ++ [kv.2]) l acc = acc ++ l.*2).
  { induction l as [|kv l IH]; intros acc; cbn [fold_left fmap list_fmap].
    - now rewrite app_nil_r.
    - rewrite IH. now rewrite <- app_assoc. }
  now rewrite Hloop.
Qed.

(** X14: [GetPods] returns, without changing the state, a list with one
    element per entry of the pod map: its length is the size of the map,
    and a pod is in it exactly when the map holds the pod under some key. *)
Theorem GetPods_lists_the_map (s : State) :
  ∃ l,
    GetPods s = (Ok l, s)
    ∧ length l = size (pods (provider s))
    ∧ ∀ pod, pod ∈ l ↔ ∃ key, pods (provider s) !! key = Some pod.
Proof.
  rewrite GetPods_run. eexists. split; [reflexivity|]. split.
  - now rewrite length_fmap, length_map_to_list.
  - intros pod. rewrite list_elem_of_fmap. split.
    + intros ([key pod'] & -> & Hin). exists key.
      now apply elem_of_map_to_list in Hin.
    + intros [key Hin]. exists (key, pod). split; [reflexivity|].
      now apply elem_of_map_to_list.
Qed.

(** X15: after [CreatePod] of a pod with non-empty namespace and name,
    whatever it returns, [GetPods] lists the pod. *)
Theorem CreatePod_listed (h : Host) (pod : v1.Pod) (s : State) (l : list v1.Pod) :
  v1.Namespace (v1.Meta pod) ≠ "" →
  v1.Name (v1.Meta pod) ≠ "" →
  (GetPods (CreatePod h pod s).2).1 = Ok l →
  pod ∈ l.
Proof.
  intros Hns Hname. rewrite GetPods_run. cbn [fst]. intros [= <-].
  destruct (CreatePod h pod s) as [r s'] eqn:Hrun.
  pose proof (CreatePod_pods h pod _ s s' r (buildKey_nonempty pod Hns Hname) Hrun) as Hp.
  cbn [snd]. rewrite Hp. cbn [pods setPods].
  apply list_elem_of_fmap. eexists (_, pod). split; [reflexivity|].
  apply elem_of_map_to_list. apply lookup_insert_eq.
Qed.

Lemma CreatePod_listed_witness :
  podNamed "default" "web" ∈ [podNamed "default" "web"].
Proof.
  apply (CreatePod_listed failingRunHost (podNamed "default" "web") exampleState
           [podNamed "default" "web"]).
  - discriminate.
  - discriminate.
  - vm_compute. reflexivity.
Defined.

(** ** What [CreatePod] does to the host *)

(** Unfolds a run of [CreatePod] down to the answers of the host. *)
Ltac run_CreatePod H :=
  unfold CreatePod in H;
  rewrite ?bind_lift_Ok, ?bind_modifyPods, ?bind_get in H;
  unfold createStartupConfig, MkdirAll, WriteFile, Command in H;
  run_monad; cbn [provider vars world files dirs commands] in H.

Lemma CreatePod_vars (h : Host) (pod : v1.Pod) (key : string) (s s' : State) (r : result unit) :
  buildKey pod = Ok key →
  CreatePod h pod s = (r, s') →
  vars s' = selectRole pod (vars s).
Proof.
  intros Hkey Hrun. run_CreatePod Hrun. rewrite Hkey in Hrun.
  destruct (os_MkdirAll h _); [now injection Hrun as _ <-|].
  destruct (ioutil_WriteFile h _ _); [now injection Hrun as _ <-|].
  destruct (ioutil_WriteFile h _ _); [now injection Hrun as _ <-|].
  destruct (ioutil_WriteFile h _ _); [now injection Hrun as _ <-|].
  cbn [provider vars world files dirs commands] in Hrun.
  destruct (exec_Command h (dockerRunArgs _)) as [out [err|]]; now injection Hrun as _ <-.
Qed.

Lemma CreatePod_ok_trace (h : Host) (pod : v1.Pod) (s s' : State) :
  CreatePod h pod s = (Ok tt, s') →
  commands (world s')
  = dockerRunArgs (vars s')
    :: [dockerClient; "rm"; "--force"; tincMainName (vars s')]
    :: commands (world s)
  ∧ dirs (world s')
    = (filepath_Join ["/tmp"; tincMainName (vars s')], mode_0775) :: dirs (world s)
  ∧ dockerRunArgs (vars s')
    = [dockerClient; "run"; "--privileged"; "--name=" +:+ tincMainName (vars s');
       "--detach"; "--rm";
       "--volume=/tmp/" +:+ tincMainName (vars s')
         +:+ "/vk-startup-config.conf:/environment/default.startup.conf";
       "--volume=/tmp/" +:+ tincMainName (vars s')
         +:+ "/vk-main.conf:/service/tinc/data/tinc.conf";
       "--volume=/tmp/" +:+ tincMainName (vars s')
         +:+ "/vk-tinc-up:/service/tinc/data/tinc-up";
       tincImageName].
Proof.
  intros Hrun. run_CreatePod Hrun.
  destruct (buildKey pod) as [key|e]; [| discriminate].
  destruct (os_MkdirAll h _); [discriminate|].
  destruct (ioutil_WriteFile h _ _); [discriminate|].
  destruct (ioutil_WriteFile h _ _); [discriminate|].
  destruct (ioutil_WriteFile h _ _); [discriminate|].
  cbn [provider vars world files dirs commands] in Hrun.
  destruct (exec_Command h (dockerRunArgs _)) as [out [err|]]; [discriminate|].
  injection Hrun as <-. cbn [provider vars world files dirs commands].
  split; [reflexivity|]. split; [reflexivity|].
  unfold selectRole. destruct (String.eqb _ "peer"); reflexivity.
Qed.

(** X16: when [CreatePod] succeeds it has run exactly two commands,
    first [docker rm --force] and then [docker run], both on the main
    name of the role, the second privileged, detached, and binding the
    three host files under /tmp to their places in the container of the
    tinc image. *)
Theorem CreatePod_commands (h : Host) (pod : v1.Pod) (s s' : State) :
  CreatePod h pod s = (Ok tt, s') →
  commands (world s')
  = dockerRunArgs (vars s')
    :: [dockerClient; "rm"; "--force"; tincMainName (vars s')]
    :: commands (world s)
  ∧ dockerRunArgs (vars s')
    = [dockerClient; "run"; "--privileged"; "--name=" +:+ tincMainName (vars s');
       "--detach"; "--rm";
       "--volume=/tmp/" +:+ tincMainName (vars s')
         +:+ "/vk-startup-config.conf:/environment/default.startup.conf";
       "--volume=/tmp/" +:+ tincMainName (vars s')
         +:+ "/vk-main.conf:/service/tinc/data/tinc.conf";
       "--volume=/tmp/" +:+ tincMainName (vars s')
         +:+ "/vk-tinc-up:/service/tinc/data/tinc-up";
       tincImageName].
Proof.
  intros Hrun. destruct (CreatePod_ok_trace h pod s s' Hrun) as (Hcmd & _ & Hargs).
  split; assumption.
Qed.

Lemma CreatePod_commands_witness :
  commands (world (CreatePod workingHost (podNamed "default" "web") exampleState).2)
  = dockerRunArgs (vars (CreatePod workingHost (podNamed "default" "web") exampleState).2)
    :: [dockerClient; "rm"; "--force";
        tincMainName (vars (CreatePod workingHost (podNamed "default" "web") exampleState).2)]
    :: commands (world exampleState)
  ∧ dockerRunArgs (vars (CreatePod workingHost (podNamed "default" "web") exampleState).2)
    = [dockerClient; "run"; "--privileged";
       "--name=" +:+ tincMainName (vars (CreatePod workingHost (podNamed "default" "web") exampleState).2);
       "--detach"; "--rm";
       "--volume=/tmp/" +:+ tincMainName (vars (CreatePod workingHost (podNamed "default" "web") exampleState).2)
         +:+ "/vk-startup-config.conf:/environment/default.startup.conf";
       "--volume=/tmp/" +:+ tincMainName (vars (CreatePod workingHost (podNamed "default" "web") exampleState).2)
         +:+ "/vk-main.conf:/service/tinc/data/tinc.conf";
       "--volume=/tmp/" +:+ tincMainName (vars (CreatePod workingHost (podNamed "default" "web") exampleState).2)
         +:+ "/vk-tinc-up:/service/tinc/data/tinc-up";
       tincImageName].
Proof.
  apply (CreatePod_commands workingHost (podNamed "default" "web") exampleState
           (CreatePod workingHost (podNamed "default" "web") exampleState).2).
  vm_compute. reflexivity.
Defined.

(** X17: the answer of the host to [docker rm] has no influence on
    [CreatePod]: with any other answer the call returns the same result
    and leaves the same state. *)
Theorem CreatePod_ignores_rm (answer : string * option error) (h : Host)
    (pod : v1.Pod) (s : State) :
  CreatePod (withRmAnswer answer h) pod s = CreatePod h pod s.
Proof.
  unfold CreatePod. destruct (buildKey pod) as [key|e]; [| reflexivity].
  rewrite !bind_lift_Ok, !bind_modifyPods, !bind_get.
  unfold createStartupConfig, MkdirAll, WriteFile, Command. run_monad.
  cbn [provider vars world files dirs commands withRmAnswer os_MkdirAll ioutil_WriteFile].
  destruct (os_MkdirAll h _); [reflexivity|].
  destruct (ioutil_WriteFile h _ _); [reflexivity|].
  destruct (ioutil_WriteFile h _ _); [reflexivity|].
  destruct (ioutil_WriteFile h _ _); [reflexivity|].
  reflexivity.
Qed.

(** X18: [CreatePod] runs no command before the three files are written:
    if the list of commands run has changed, then the startup
    configuration, the main configuration and the script of the role are
    in their files. *)
Theorem CreatePod_commands_after_files (h : Host) (pod : v1.Pod) (s s' : State)
    (r : result unit) :
  CreatePod h pod s = (r, s') →
  commands (world s') ≠ commands (world s) →
  files (world s') !! tincStartupConfigHost (vars s')
  = Some (startupData (provider s') (vars s') DefaultTincRemotePeers, mode_0644)
  ∧ files (world s') !! tincMainConfigHost (vars s')
    = Some (mainData (provider s') (vars s'), mode_0644)
  ∧ files (world s') !! tincUpScriptHost (vars s')
    = Some (scriptData (vars s'), mode_0755).
Proof.
  intros Hrun Hcmd. run_CreatePod Hrun.
  destruct (buildKey pod) as [key|e];
    [| injection Hrun as _ <-; now contradiction Hcmd].
  destruct (os_MkdirAll h _); [injection Hrun as _ <-; now contradiction Hcmd|].
  destruct (ioutil_WriteFile h _ _); [injection Hrun as _ <-; now contradiction Hcmd|].
  destruct (ioutil_WriteFile h _ _); [injection Hrun as _ <-; now contradiction Hcmd|].
  destruct (ioutil_WriteFile h _ _); [injection Hrun as _ <-; now contradiction Hcmd|].
  cbn [provider vars world files dirs commands] in Hrun.
  assert (Hs' : s' = mkState
                  (setPods (provider s) (<[key := pod]> (pods (provider s))))
                  (selectRole pod (vars s))
                  (mkWorld
                     ((filepath_Join ["/tmp"; tincMainName (selectRole pod (vars s))], mode_0775)
                      :: dirs (world s))
                     (<[tincUpScriptHost (selectRole pod (vars s)) :=
                          (scriptData (selectRole pod (vars s)), mode_0755)]>
                      (<[tincMainConfigHost (selectRole pod (vars s)) :=
                           (mainData (setPods (provider s) (<[key := pod]> (pods (provider s))))
                                     (selectRole pod (vars s)), mode_0644)]>
                       (<[tincStartupConfigHost (selectRole pod (vars s)) :=
                            (startupData (setPods (provider s) (<[key := pod]> (pods (provider s))))
                                         (selectRole pod (vars s)) DefaultTincRemotePeers,
                             mode_0644)]>
                        (files (world s)))))
                     (dockerRunArgs (selectRole pod (vars s))
                      :: [dockerClient; "rm"; "--force"; tincMainName (selectRole pod (vars s))]
                      :: commands (world s)))).
  { destruct (exec_Command h (dockerRunArgs _)) as [out [err|]];
      now injection Hrun as _ <-. }
  clear Hrun Hcmd. subst s'. cbn [provider vars world files dirs commands].
  unfold selectRole. destruct (String.eqb _ "peer");
    cbn [tincStartupConfigHost tincMainConfigHost tincUpScriptHost];
    (split; [| split]);
    repeat first [ apply lookup_insert_eq
                 | rewrite lookup_insert_ne by (vm_compute; discriminate) ];
    reflexivity.
Qed.

Lemma CreatePod_commands_after_files_witness :
  files (world (CreatePod failingRunHost (podNamed "default" "web") exampleState).2)
    !! tincStartupConfigHost (vars (CreatePod failingRunHost (podNamed "default" "web") exampleState).2)
  = Some (startupData (provider (CreatePod failingRunHost (podNamed "default" "web") exampleState).2)
            (vars (CreatePod failingRunHost (podNamed "default" "web") exampleState).2)
            DefaultTincRemotePeers, mode_0644)
  ∧ files (world (CreatePod failingRunHost (podNamed "default" "web") exampleState).2)
      !! tincMainConfigHost (vars (CreatePod failingRunHost (podNamed "default" "web") exampleState).2)
    = Some (mainData (provider (CreatePod failingRunHost (podNamed "default" "web") exampleState).2)
              (vars (CreatePod failingRunHost (podNamed "default" "web") exampleState).2),
            mode_0644)
  ∧ files (world (CreatePod failingRunHost (podNamed "default" "web") exampleState).2)
      !! tincUpScriptHost (vars (CreatePod failingRunHost (podNamed "default" "web") exampleState).2)
    = Some (scriptData (vars (CreatePod failingRunHost (podNamed "default" "web") exampleState).2),
            mode_0755).
Proof.
  apply (CreatePod_commands_after_files failingRunHost (podNamed "default" "web") exampleState
           (CreatePod failingRunHost (podNamed "default" "web") exampleState).2
           (CreatePod failingRunHost (podNamed "default" "web") exampleState).1).
  - vm_compute. reflexivity.
  - vm_compute. discriminate.
Defined.

(** X19: when the directory of the role cannot be made, [CreatePod] of a
    pod with a key returns the error of the host; the pod is stored and
    the package variables are those of the role, but no file is written
    and no command is run. *)
Theorem CreatePod_mkdir_error (h : Host) (pod : v1.Pod) (key : string) (e : error) (s : State) :
  buildKey pod = Ok key →
  os_MkdirAll h (filepath_Join ["/tmp"; tincMainName (selectRole pod (vars s))]) = Some e →
  CreatePod h pod s
  = (Err e,
     mkState (setPods (provider s) (<[key := pod]> (pods (provider s))))
             (selectRole pod (vars s)) (world s)).
Proof.
  intros Hkey Hmk. unfold CreatePod. rewrite Hkey.
  rewrite bind_lift_Ok, bind_modifyPods, bind_get.
  unfold createStartupConfig, MkdirAll. run_monad.
  cbn [provider vars world]. now rewrite Hmk.
Qed.

Lemma CreatePod_mkdir_error_witness :
  CreatePod failingMkdirHost (podNamed "default" "web") exampleState
  = (Err (HostError "mkdir /tmp/nodemain: permission denied"),
     mkState (setPods (provider exampleState)
                (<["default-web" := podNamed "default" "web"]> (pods (provider exampleState))))
             (selectRole (podNamed "default" "web") (vars exampleState)) (world exampleState)).
Proof.
  apply (CreatePod_mkdir_error failingMkdirHost (podNamed "default" "web") "default-web"
           (HostError "mkdir /tmp/nodemain: permission denied") exampleState).
  - reflexivity.
  - reflexivity.
Defined.

(** ** Invariants of sequences of calls *)

Lemma setPods_same (p : TincProvider) : setPods p (pods p) = p.
Proof. now destruct p. Qed.

Lemma wellKeyed_insert (m : gmap string v1.Pod) (key : string) (pod : v1.Pod) :
  buildKey pod = Ok key → wellKeyed m → wellKeyed (<[key := pod]> m).
Proof.
  intros Hkey Hm k p Hin.
  apply lookup_insert_Some in Hin as [[<- <-] | [_ Hin]]; [assumption|].
  exact (Hm k p Hin).
Qed.

Lemma wellKeyed_delete (m : gmap string v1.Pod) (key : string) :
  wellKeyed m → wellKeyed (delete key m).
Proof.
  intros Hm k p Hin. apply lookup_delete_Some in Hin as [_ Hin].
  exact (Hm k p Hin).
Qed.

(** What a call may do to the provider: replace the pod map by one that
    is well keyed if the old one was. *)
Lemma stateAfter_provider (c : Call) (s : State) :
  ∃ m, provider (stateAfter c s) = setPods (provider s) m
       ∧ (wellKeyed (pods (provider s)) → wellKeyed m).
Proof.
  destruct c as [h pod|pod|h pod|namespace name|now namespace name|]; cbn [stateAfter].
  - destruct (buildKey pod) as [key|e] eqn:Hkey.
    + destruct (CreatePod h pod s) as [r s'] eqn:Hrun. cbn [snd].
      rewrite (CreatePod_pods h pod key s s' r Hkey Hrun).
      eexists. split; [reflexivity|]. now apply wellKeyed_insert.
    + rewrite (CreatePod_invalid h pod e s Hkey). cbn [snd].
      exists (pods (provider s)). now rewrite setPods_same.
  - rewrite UpdatePod_run. destruct (buildKey pod) as [key|e] eqn:Hkey; cbn [snd provider].
    + eexists. split; [reflexivity|]. now apply wellKeyed_insert.
    + exists (pods (provider s)). now rewrite setPods_same.
  - rewrite DeletePod_run. destruct (buildKey pod) as [key|e]; cbn [snd].
    + destruct (pods (provider s) !! key); cbv zeta.
      * destruct (exec_Command h _) as [out [err|]]; cbn [snd provider];
          (eexists; split; [reflexivity|]; now apply wellKeyed_delete).
      * exists (pods (provider s)). now rewrite setPods_same.
    + exists (pods (provider s)). now rewrite setPods_same.
  - rewrite GetPod_lookup. exists (pods (provider s)). rewrite setPods_same.
    now destruct (pods (provider s) !! _).
  - rewrite GetPodStatus_run, GetPod_lookup. exists (pods (provider s)).
    rewrite setPods_same. now destruct (pods (provider s) !! _).
  - rewrite GetPods_run. exists (pods (provider s)). now rewrite setPods_same.
Qed.

Lemma runCalls_provider (cs : list Call) (s : State) :
  ∃ m, provider (runCalls cs s) = setPods (provider s) m
       ∧ (wellKeyed (pods (provider s)) → wellKeyed m).
Proof.
  revert s. induction cs as [|c cs IH]; intros s.
  - exists (pods (provider s)). now rewrite setPods_same.
  - cbn [runCalls fold_left]. fold (runCalls cs (stateAfter c s)).
    destruct (stateAfter_provider c s) as (m1 & Hp1 & Hk1).
    destruct (IH (stateAfter c s)) as (m2 & Hp2 & Hk2).
    exists m2. rewrite Hp2, Hp1. split; [reflexivity|].
    intros Hs. apply Hk2. rewrite Hp1. cbn [pods setPods]. now apply Hk1.
Qed.

(** X20: no sequence of calls changes the node name, the address, the
    subnet, the port or the configuration of the provider, only its pod
    map; so [Capacity] answers after the calls what it answers before. *)
Theorem runCalls_keeps_settings (parse : string → bool) (cs : list Call) (s : State) :
  provider (runCalls cs s) = setPods (provider s) (pods (provider (runCalls cs s)))
  ∧ Capacity parse (provider (runCalls cs s)) = Capacity parse (provider s).
Proof.
  destruct (runCalls_provider cs s) as (m & Hp & _). rewrite Hp.
  split; reflexivity.
Qed.

(** X21: if every pod of the map is stored under the key built from it,
    this is still so after any sequence of calls; [GetPod] then returns
    only pods with non-empty namespace and name whose key is the key of
    the names asked for. *)
Theorem runCalls_wellKeyed (cs : list Call) (s : State) :
  wellKeyed (pods (provider s)) →
  wellKeyed (pods (provider (runCalls cs s)))
  ∧ ∀ namespace name pod,
      (GetPod namespace name (runCalls cs s)).1 = Ok pod →
      v1.Namespace (v1.Meta pod) ≠ "" ∧ v1.Name (v1.Meta pod) ≠ ""
      ∧ v1.Namespace (v1.Meta pod) +:+ "-" +:+ v1.Name (v1.Meta pod)
        = namespace +:+ "-" +:+ name.
Proof.
  intros Hs. destruct (runCalls_provider cs s) as (m & Hp & Hk).
  assert (Hafter : wellKeyed (pods (provider (runCalls cs s)))).
  { rewrite Hp. cbn [pods setPods]. now apply Hk. }
  split; [exact Hafter|].
  intros namespace name pod. rewrite GetPod_lookup.
  destruct (pods (provider (runCalls cs s)) !! _) as [stored|] eqn:Hin; [| discriminate].
  cbn [fst]. intros [= ->]. apply Hafter in Hin.
  pose proof (buildKey_nonempty_inv pod _ Hin) as Hkey.
  unfold buildKey in Hin.
  destruct (String.eqb_spec (v1.Namespace (v1.Meta pod)) ""); [discriminate|].
  destruct (String.eqb_spec (v1.Name (v1.Meta pod)) ""); [discriminate|].
  auto.
Qed.

Lemma runCalls_wellKeyed_witness :
  wellKeyed (pods (provider
    (runCalls [CallCreatePod failingRunHost (podNamed "a-b" "c");
               CallUpdatePod (podNamed "a" "b-c");
               CallDeletePod workingHost (podNamed "default" "ghost")] exampleState)))
  ∧ ∀ namespace name pod,
      (GetPod namespace name
         (runCalls [CallCreatePod failingRunHost (podNamed "a-b" "c");
                    CallUpdatePod (podNamed "a" "b-c");
                    CallDeletePod workingHost (podNamed "default" "ghost")] exampleState)).1
      = Ok pod →
      v1.Namespace (v1.Meta pod) ≠ "" ∧ v1.Name (v1.Meta pod) ≠ ""
      ∧ v1.Namespace (v1.Meta pod) +:+ "-" +:+ v1.Name (v1.Meta pod)
        = namespace +:+ "-" +:+ name.
Proof.
  apply (runCalls_wellKeyed
           [CallCreatePod failingRunHost (podNamed "a-b" "c");
            CallUpdatePod (podNamed "a" "b-c");
            CallDeletePod workingHost (podNamed "default" "ghost")] exampleState).
  intros key pod Hin. vm_compute in Hin. discriminate.
Defined.

Lemma selectRole_roleVars (pod : v1.Pod) (v : Vars) :
  roleVars v → roleVars (selectRole pod v).
Proof.
  intros (Hmy & Hpeer & _). unfold roleVars, selectRole.
  destruct (String.eqb _ "peer");
    cbn [myAddress peerAddress privateAddress tincMainName tincPeerName]; auto.
Qed.

Lemma stateAfter_vars (c : Call) (s : State) :
  vars (stateAfter c s) = vars s ∨ ∃ pod, vars (stateAfter c s) = selectRole pod (vars s).
Proof.
  destruct c as [h pod|pod|h pod|namespace name|now namespace name|]; cbn [stateAfter].
  - destruct (buildKey pod) as [key|e] eqn:Hkey.
    + right. exists pod. destruct (CreatePod h pod s) as [r s'] eqn:Hrun.
      exact (CreatePod_vars h pod key s s' r Hkey Hrun).
    + left. now rewrite (CreatePod_invalid h pod e s Hkey).
  - left. rewrite UpdatePod_run. now destruct (buildKey pod).
  - left. rewrite DeletePod_run. destruct (buildKey pod) as [key|e]; [| reflexivity].
    destruct (pods (provider s) !! key); [| reflexivity]. cbv zeta.
    now destruct (exec_Command h _) as [out [err|]].
  - left. rewrite GetPod_lookup. now destruct (pods (provider s) !! _).
  - left. rewrite GetPodStatus_run, GetPod_lookup. now destruct (pods (provider s) !! _).
  - left. now rewrite GetPods_run.
Qed.

(** X22: once the package variables hold the values of a role, they do
    so after any sequence of calls: the own address and the peer address
    stay the two default addresses, and the private address, the main
    name and the peer name are those of the main node or those of the
    peer node. *)
Theorem runCalls_roleVars (cs : list Call) (s : State) :
  roleVars (vars s) → roleVars (vars (runCalls cs s)).
Proof.
  revert s. induction cs as [|c cs IH]; intros s Hs; [exact Hs|].
  cbn [runCalls fold_left]. fold (runCalls cs (stateAfter c s)). apply IH.
  destruct (stateAfter_vars c s) as [-> | [pod ->]]; [exact Hs|].
  now apply selectRole_roleVars.
Qed.

Lemma runCalls_roleVars_witness :
  roleVars (vars (runCalls
    [CallCreatePod workingHost
       (v1.mkPod (v1.mkObjectMeta "vpn" "default" ∅ {[ "vpnmode" := "peer" ]})
                 (v1.mkPodSpec []));
     CallGetPods] exampleState)).
Proof.
  apply (runCalls_roleVars
           [CallCreatePod workingHost
              (v1.mkPod (v1.mkObjectMeta "vpn" "default" ∅ {[ "vpnmode" := "peer" ]})
                        (v1.mkPodSpec []));
            CallGetPods] exampleState).
  vm_compute. repeat split; left; reflexivity.
Defined.

(** ** Roles *)

(** X23: the role of the last pod created wins: the package variables
    after [selectRole] for one pod and then for another are those after
    [selectRole] for the second alone; and in either role the main name
    and the peer name differ. *)
Theorem selectRole_last_wins (pod1 pod2 : v1.Pod) (v : Vars) :
  selectRole pod2 (selectRole pod1 v) = selectRole pod2 v
  ∧ tincMainName (selectRole pod2 v) ≠ tincPeerName (selectRole pod2 v).
Proof.
  unfold selectRole.
  destruct (String.eqb (default "" (v1.Annotations (v1.Meta pod1) !! "vpnmode")) "peer"),
           (String.eqb (default "" (v1.Annotations (v1.Meta pod2) !! "vpnmode")) "peer");
    split; solve [reflexivity | discriminate].
Qed.

(** X24: the role changes only the [ConnectTo] and [Name] lines of the
    startup configuration: after the six scalar lines, the lines of the
    node and of the peers are the same text for the role of any two pods. *)
Theorem startupData_bindings_any_role (p : TincProvider) (v : Vars) (peers : string)
    (pod1 pod2 : v1.Pod) :
  ∃ bindings,
    startupData p (selectRole pod1 v) peers
    = unlines (map addLine (scalarSettings p (selectRole pod1 v))) +:+ bindings
    ∧ startupData p (selectRole pod2 v) peers
      = unlines (map addLine (scalarSettings p (selectRole pod2 v))) +:+ bindings
    ∧ bindings
      = unlines (map addLine
                   (nodeBinding p (Name (config p)) (myAddress v)
                    ++ flat_map (λ nodePeer, nodeBinding p nodePeer (peerAddress v))
                                (Fields peers))).
Proof.
  eexists. split; [| split; [| reflexivity]].
  - rewrite startupData_lines, map_app, unlines_app. f_equal.
    unfold selectRole. now destruct (String.eqb _ "peer").
  - rewrite startupData_lines, map_app, unlines_app. f_equal.
    unfold selectRole. now destruct (String.eqb _ "peer").
Qed.

(** ** Creating and deleting *)

(** X27: [DeletePod] removes the container of the configured name, not
    the one [CreatePod] started: after a successful [CreatePod] of a pod
    annotated as peer, the container run is named nodepeer, and
    [DeletePod] of the pod then runs [docker rm --force] on the [Name] of
    the configuration. *)
Theorem DeletePod_removes_configured_name (h1 h2 : Host) (pod : v1.Pod) (s s1 : State) :
  v1.Annotations (v1.Meta pod) !! "vpnmode" = Some "peer" →
  CreatePod h1 pod s = (Ok tt, s1) →
  tincMainName (vars s1) = "nodepeer"
  ∧ commands (world (DeletePod h2 pod s1).2)
    = [dockerClient; "rm"; "--force"; Name (config (provider s))]
      :: dockerRunArgs (vars s1)
      :: [dockerClient; "rm"; "--force"; "nodepeer"]
      :: commands (world s).
Proof.
  intros Hpeer Hrun.
  destruct (buildKey pod) as [key|e] eqn:Hkey;
    [| rewrite (CreatePod_invalid h1 pod e s Hkey) in Hrun; discriminate].
  pose proof (CreatePod_vars h1 pod key s s1 _ Hkey Hrun) as Hv.
  pose proof (CreatePod_pods h1 pod key s s1 _ Hkey Hrun) as Hp.
  destruct (CreatePod_ok_trace h1 pod s s1 Hrun) as (Hcmd & _ & _).
  assert (Hmain : tincMainName (vars s1) = "nodepeer").
  { rewrite Hv. unfold selectRole. now rewrite Hpeer. }
  split; [exact Hmain|].
  rewrite DeletePod_run, Hkey, Hp. cbn [pods setPods config].
  rewrite lookup_insert_eq. cbv zeta.
  destruct (exec_Command h2 _) as [out [err|]]; cbn [snd world commands];
    now rewrite Hcmd, Hmain.
Qed.

Lemma DeletePod_removes_configured_name_witness :
  tincMainName (vars (CreatePod workingHost
     (v1.mkPod (v1.mkObjectMeta "vpn" "default" ∅ {[ "vpnmode" := "peer" ]}) (v1.mkPodSpec []))
     exampleState).2) = "nodepeer"
  ∧ commands (world (DeletePod workingHost
       (v1.mkPod (v1.mkObjectMeta "vpn" "default" ∅ {[ "vpnmode" := "peer" ]}) (v1.mkPodSpec []))
       (CreatePod workingHost
          (v1.mkPod (v1.mkObjectMeta "vpn" "default" ∅ {[ "vpnmode" := "peer" ]}) (v1.mkPodSpec []))
          exampleState).2).2)
    = [dockerClient; "rm"; "--force"; Name (config (provider exampleState))]
      :: dockerRunArgs (vars (CreatePod workingHost
           (v1.mkPod (v1.mkObjectMeta "vpn" "default" ∅ {[ "vpnmode" := "peer" ]}) (v1.mkPodSpec []))
           exampleState).2)
      :: [dockerClient; "rm"; "--force"; "nodepeer"]
      :: commands (world exampleState).
Proof.
  apply (DeletePod_removes_configured_name workingHost workingHost
           (v1.mkPod (v1.mkObjectMeta "vpn" "default" ∅ {[ "vpnmode" := "peer" ]}) (v1.mkPodSpec []))
           exampleState).
  - reflexivity.
  - vm_compute. reflexivity.
Defined.
